(** * rds-failover-sim: the monitoring / failover tool of [rds-failover/app/simFail.go]

    A shallow embedding of the Go program.  The remote control plane, the
    file system and the JSON decoder are external collaborators: they are
    gathered in a record [Env] of oracles.  The program itself is written in
    a small state monad that threads the number of describe calls issued so
    far, a logical clock and the log of observable events, and whose results
    distinguish a normal return, a run-time panic and a loop that is still
    running when the iteration budget is used up. *)

From Stdlib Require Import String Ascii List ZArith Lia Bool Arith.
Import ListNotations.

Local Open Scope string_scope.
Local Open Scope list_scope.

(** String concatenation, as produced by the [%s] and [%v] verbs. *)
Local Infix "^^" := String.append (at level 60, right associativity).

(** ** Data model *)

(** The line feed that ends the [Println] and ["...\n"] outputs. *)
Definition nl : string := String (ascii_of_nat 10) EmptyString.

(** [type SimulationConfig struct]. *)
Record SimulationConfig := mkSimulationConfig {
  DBIdentifier : string;
  Endpoint : string;
  Port : Z
}.

(** The two fields of [types.DBInstance] the program reads; both are
    [*string] in the SDK, hence optional. *)
Record DBInstance := mkDBInstance {
  DBInstanceStatus : option string;
  AvailabilityZone : option string
}.

(** A Go [error] value is represented by its message; [nil] is [None]. *)
Definition error := option string.

(** What [DescribeDBInstances] hands back: the [DBInstances] slice of the
    output, or the message of the error. *)
Definition describeResult : Type := list DBInstance + string.

(** The package-level [color] printers. *)
Inductive printer := success | warning | failure | info | header.

Inductive sink := Stdout | Stderr.

(** [time.Second], a [Duration] counted in nanoseconds. *)
Definition Second : Z := 1000000000.

(** Observable events.  [Stamp t s] is the [fmt.Printf] that writes the
    clock reading [t] (formatted [15:04:05]) between brackets, followed by
    [s]. *)
Inductive event :=
| Print (p : printer) (out : sink) (text : string)
| Stamp (t : Z) (suffix : string)
| CallLoadDefaultConfig
| CallReboot (id : string) (forceFailover : bool)
| CallDescribe (id : string)
| TickerRecv (d : Z)
| Sleep (d : Z).

(** External collaborators.  [describeDBInstances n id] is the answer to
    the describe call number [n] (counted from 0) of the run. *)
Record Env := mkEnv {
  readFile : string -> string + string;
  jsonUnmarshal : string -> SimulationConfig + string;
  loadDefaultConfig : error;
  rebootDBInstance : string -> bool -> error;
  describeDBInstances : nat -> string -> describeResult
}.

(** ** The monad *)

(** [calls]: describe calls issued so far; [clock]: logical time in
    nanoseconds, advanced only by ticker receives and sleeps; [trace]: the
    events so far, each with the clock reading at which it happened. *)
Record state := mkState {
  calls : nat;
  clock : Z;
  trace : list (Z * event)
}.

Inductive res (A : Type) :=
| Ret (a : A)
| Panic
| OutOfFuel.
Arguments Ret {A} a.
Arguments Panic {A}.
Arguments OutOfFuel {A}.

Definition M (A : Type) : Type := state -> res A * state.

Definition ret {A} (a : A) : M A := fun st => (Ret a, st).

Definition bind {A B} (m : M A) (k : A -> M B) : M B :=
  fun st =>
    match m st with
    | (Ret a, st') => k a st'
    | (Panic, st') => (Panic, st')
    | (OutOfFuel, st') => (OutOfFuel, st')
    end.

Notation "x <- m ;; k" := (bind m (fun x => k))
  (at level 61, m at next level, right associativity).
Notation "m ;; k" := (bind m (fun _ => k))
  (at level 61, right associativity).

Definition panic {A} : M A := fun st => (Panic, st).

Definition outOfFuel {A} : M A := fun st => (OutOfFuel, st).

Definition emit (e : event) : M unit :=
  fun st => (Ret tt, mkState (calls st) (clock st) (trace st ++ [(clock st, e)])).

Definition advance (d : Z) : M unit :=
  fun st => (Ret tt, mkState (calls st) (clock st + d) (trace st)).

(** [time.Now()]. *)
Definition now : M Z := fun st => (Ret (clock st), st).

(** Dereference of a pointer: a nil pointer panics. *)
Definition deref {A} (p : option A) : M A :=
  match p with
  | Some a => ret a
  | None => panic
  end.

(** Field selection [p.f] through a pointer [p]. *)
Definition field {A B} (p : option A) (f : A -> B) : M B :=
  a <- deref p ;; ret (f a).

(** [p.Println(s)], [p.Printf(s)] and [p.Fprintf(os.Stderr, s)], the format
    already expanded into [s]. *)
Definition Println (p : printer) (s : string) : M unit :=
  emit (Print p Stdout (s ^^ nl)).

Definition Printf (p : printer) (s : string) : M unit :=
  emit (Print p Stdout s).

Definition Fprintf (p : printer) (out : sink) (s : string) : M unit :=
  emit (Print p out s).

(** [time.Sleep(d)]. *)
Definition sleep (d : Z) : M unit :=
  emit (Sleep d) ;; advance d.

(** A receive on [ticker.C] of a ticker of period [d]: it blocks until the
    next tick; the channel of a [time.Ticker] is never closed, so the
    receive always delivers ([true]).  The loop body takes no logical time,
    so the next tick is one period away. *)
Definition tickerRecv (d : Z) : M bool :=
  advance d ;; emit (TickerRecv d) ;; ret true.

(** [for range ticker.C { body }]: ends when the channel is closed. *)
Fixpoint rangeTicker (fuel : nat) (d : Z) (body : M unit) : M unit :=
  match fuel with
  | O => outOfFuel
  | S n =>
      ok <- tickerRecv d ;;
      if ok : bool then body ;; rangeTicker n d body else ret tt
  end.

(** What one turn of a [for { ... }] body decides. *)
Inductive ctl (A : Type) :=
| Continue
| Return (a : A).
Arguments Continue {A}.
Arguments Return {A} a.

(** [for { body }]. *)
Fixpoint forever {A} (fuel : nat) (body : M (ctl A)) : M A :=
  match fuel with
  | O => outOfFuel
  | S n =>
      c <- body ;;
      match c with
      | Continue => forever n body
      | Return a => ret a
      end
  end.

(** [%-12s]: left-justified in a field of width 12 (strings are taken to be
    single-byte text, for which the byte count is the rune count). *)
Fixpoint spaces (n : nat) : string :=
  match n with
  | O => EmptyString
  | S m => String " " (spaces m)
  end.

Definition padRight (w : nat) (s : string) : string :=
  s ^^ spaces (w - String.length s).

(** ** The program *)

Section Program.

Variable env : Env.

(** [client.DescribeDBInstances(ctx, input)]. *)
Definition callDescribe (id : string) : M describeResult :=
  fun st =>
    (Ret (describeDBInstances env (calls st) id),
     mkState (S (calls st)) (clock st) (trace st ++ [(clock st, CallDescribe id)])).

(** [rdsClient.RebootDBInstance(ctx, input)]. *)
Definition callReboot (id : string) (force : bool) : M error :=
  emit (CallReboot id force) ;; ret (rebootDBInstance env id force).

(** [config.LoadDefaultConfig(ctx)]. *)
Definition callLoadDefaultConfig : M error :=
  emit CallLoadDefaultConfig ;; ret (loadDefaultConfig env).

Definition loadConfig (path : string) : option SimulationConfig * error :=
  match readFile env path with
  | inr e => (None, Some ("error reading config file: " ^^ e))
  | inl file =>
      match jsonUnmarshal env file with
      | inr e => (None, Some ("error parsing config file: " ^^ e))
      | inl simConfig => (Some simConfig, None)
      end
  end.

Definition printStatus (status az : string) : M unit :=
  timestamp <- now ;;
  emit (Stamp timestamp " ") ;;
  (if status =? "available" then Printf success (padRight 12 status)
   else if (status =? "rebooting") || (status =? "modifying")
        then Printf warning (padRight 12 status)
   else Printf failure (padRight 12 status)) ;;
  Printf info (" AZ: " ^^ az ^^ nl).

Definition getRDSStatus (dbIdentifier : string) : M (string * string * error) :=
  r <- callDescribe dbIdentifier ;;
  match r with
  | inr err => ret ("", "", Some err)
  | inl [] => ret ("", "", Some "no DB instance found")
  | inl (instance :: _) =>
      status <- deref (DBInstanceStatus instance) ;;
      az <- deref (AvailabilityZone instance) ;;
      ret (status, az, None)
  end.

(** The body of the [for range ticker.C] loop of [monitorDatabase]. *)
Definition monitorBody (simConfig : option SimulationConfig) : M unit :=
  id <- field simConfig DBIdentifier ;;
  r <- getRDSStatus id ;;
  match r with
  | (_, _, Some err) => Printf failure ("Error checking RDS: " ^^ err ^^ nl)
  | (status, az, None) => printStatus status az
  end.

(** The deferred [ticker.Stop()] has no observable effect and is left out. *)
Definition monitorDatabase (fuel : nat) (simConfig : option SimulationConfig)
  : M error :=
  Println success "Starting RDS monitoring..." ;;
  id <- field simConfig DBIdentifier ;;
  Printf info ("Instance: " ^^ id ^^ nl) ;;
  ep <- field simConfig Endpoint ;;
  Printf info ("Endpoint: " ^^ ep ^^ nl) ;;
  err <- callLoadDefaultConfig ;;
  match err with
  | Some e => ret (Some ("unable to load AWS config: " ^^ e))
  | None =>
      rangeTicker fuel (5 * Second) (monitorBody simConfig) ;;
      ret None
  end.

Definition printFailoverStatus (status : string) : M unit :=
  timestamp <- now ;;
  emit (Stamp timestamp " Status: ") ;;
  if status =? "available" then Println success status
  else if (status =? "rebooting") || (status =? "modifying")
       then Println warning status
  else Println failure status.

(** The body of the [for] loop of [monitorFailoverStatus]. *)
Definition failoverBody (dbIdentifier : string) : M (ctl error) :=
  r <- callDescribe dbIdentifier ;;
  match r with
  | inr err => ret (Return (Some ("error describing DB instance: " ^^ err)))
  | inl [] => ret (Return (Some "no DB instance found"))
  | inl (first :: _) =>
      status <- deref (DBInstanceStatus first) ;;
      printFailoverStatus status ;;
      if status =? "available"
      then Println success "Failover completed successfully" ;;
           ret (Return None)
      else sleep (10 * Second) ;; ret Continue
  end.

Definition monitorFailoverStatus (fuel : nat) (dbIdentifier : string) : M error :=
  Println header "Monitoring failover status..." ;;
  forever fuel (failoverBody dbIdentifier).

Definition triggerFailover (fuel : nat) (simConfig : option SimulationConfig)
  : M error :=
  Println warning "Initiating failover simulation..." ;;
  id <- field simConfig DBIdentifier ;;
  Printf info ("Target instance: " ^^ id ^^ nl) ;;
  err <- callLoadDefaultConfig ;;
  match err with
  | Some e => ret (Some ("unable to load AWS config: " ^^ e))
  | None =>
      id <- field simConfig DBIdentifier ;;
      err <- callReboot id true ;;
      match err with
      | Some e => ret (Some ("failed to trigger failover: " ^^ e))
      | None =>
          Println success "Failover initiated successfully" ;;
          id <- field simConfig DBIdentifier ;;
          monitorFailoverStatus fuel id
      end
  end.

(** [main], given the values of the two flags ([None]: flag not given, the
    default applies). *)
Definition main (fuel : nat) (configFlag modeFlag : option string) : M unit :=
  Println header "RDS Failover Simulation Tool" ;;
  let configFile := match configFlag with Some f => f | None => "config.json" end in
  let mode := match modeFlag with Some m => m | None => "monitor" end in
  Printf info ("Mode: " ^^ mode ^^ nl) ;;
  let (simConfig, err) := loadConfig configFile in
  (match err with
   | Some e => Fprintf failure Stderr ("Error loading configuration: " ^^ e ^^ nl)
   | None => ret tt
   end) ;;
  err <- (if mode =? "monitor" then monitorDatabase fuel simConfig
          else if mode =? "failover" then triggerFailover fuel simConfig
          else Fprintf failure Stderr "Invalid mode specified" ;; ret err) ;;
  match err with
  | Some e => Fprintf failure Stderr ("Error: " ^^ e ^^ nl)
  | None => ret tt
  end.

End Program.

(** ** The classification of the specification *)

(** The operator-facing categories of the specification, the two sets of
    raw status strings the code recognises, and the classification by
    membership in them.  [treatment] is the printer each category is
    rendered with. *)
Inductive StatusCategory := Healthy | Transitional | Unknown.

Definition healthySet : list string := ["available"].

Definition transitionalSet : list string := ["rebooting"; "modifying"].

Definition classify (rawStatus : string) : StatusCategory :=
  if existsb (String.eqb rawStatus) healthySet then Healthy
  else if existsb (String.eqb rawStatus) transitionalSet then Transitional
  else Unknown.

Definition treatment (c : StatusCategory) : printer :=
  match c with
  | Healthy => success
  | Transitional => warning
  | Unknown => failure
  end.

(** ** Observations on traces *)

Definition isDescribe (e : event) : bool :=
  match e with CallDescribe _ => true | _ => false end.

(** A report: a line printed on standard output with one of the three
    category printers (a status line, an error line of the monitor loop, or
    the closing line of the recovery loop). *)
Definition isReport (e : event) : bool :=
  match e with
  | Print success Stdout _ | Print warning Stdout _ | Print failure Stdout _ => true
  | _ => false
  end.

(** The clock readings of the events selected by [p], in order. *)
Definition timesOf (p : event -> bool) (tr : list (Z * event)) : list Z :=
  map fst (filter (fun x => p (snd x)) tr).

Definition describeTimes := timesOf isDescribe.
Definition reportTimes := timesOf isReport.

(** [n] instants spaced by [d], the first one at [t]. *)
Fixpoint everyFrom (t d : Z) (n : nat) : list Z :=
  match n with
  | O => []
  | S k => t :: everyFrom (t + d) d k
  end.

(** ** Kinds of answers of the control plane *)

(** The category of the status of the first instance of an answer, when
    the answer has one. *)
Definition observed (r : describeResult) : option StatusCategory :=
  match r with
  | inl (first :: _) => option_map classify (DBInstanceStatus first)
  | _ => None
  end.

Definition healthy (r : describeResult) : bool :=
  match observed r with
  | Some Healthy => true
  | _ => false
  end.

(** A status was observed and it is [Transitional] or [Unknown]. *)
Definition pending (r : describeResult) : bool :=
  match observed r with
  | Some Transitional | Some Unknown => true
  | _ => false
  end.

(** An answer whose first instance, if any, has both pointer fields set. *)
Definition wellFormed (r : describeResult) : bool :=
  match r with
  | inl (first :: _) =>
      match DBInstanceStatus first, AvailabilityZone first with
      | Some _, Some _ => true
      | _, _ => false
      end
  | _ => true
  end.

(** ** Scenarios *)

Definition config1 : SimulationConfig := mkSimulationConfig "db-1" "x" 3306.

Definition instance (status az : string) : DBInstance :=
  mkDBInstance (Some status) (Some az).

Definition st0 : state := mkState 0 0 [].

(** An environment whose configuration file [file] yields [config1], whose
    reboot call answers [reboot], and whose describe calls answer the
    elements of [script] in turn and [rest] ever after. *)
Definition scripted (file : string + string) (reboot : error)
    (script : list describeResult) (rest : describeResult) : Env :=
  mkEnv (fun _ => file) (fun _ => inl config1) None (fun _ _ => reboot)
        (fun n _ => nth n script rest).

Definition available : describeResult := inl [instance "available" "us-east-1a"].
Definition rebooting : describeResult := inl [instance "rebooting" "us-east-1a"].

(** Scenario A: available on every call. *)
Definition scenarioA : Env := scripted (inl "{}") None [] available.

(** Scenario B: rebooting, rebooting, available. *)
Definition scenarioB : Env :=
  scripted (inl "{}") None [rebooting; rebooting] available.

(** Scenario C: the forced reboot is refused. *)
Definition scenarioC : Env :=
  scripted (inl "{}") (Some "access denied") [] available.

(** Scenario D: no instance on the first call, available afterwards. *)
Definition scenarioD : Env := scripted (inl "{}") None [inl []] available.

(** A transport error on the first call, available afterwards. *)
Definition scenarioT : Env := scripted (inl "{}") None [inr "timeout"] available.

(** A pending answer, then no instance. *)
Definition scenarioLost : Env :=
  scripted (inl "{}") None [rebooting; inl []] available.

(** A pending answer, then a transport error. *)
Definition scenarioFlaky : Env :=
  scripted (inl "{}") None [rebooting; inr "timeout"] available.

(** Two instances in one answer. *)
Definition scenarioTwo : Env :=
  scripted (inl "{}") None []
    (inl [instance "available" "us-east-1a"; instance "rebooting" "us-east-1b"]).

(** The configuration file cannot be read. *)
Definition scenarioNoFile : Env :=
  scripted (inr "open config.json: no such file or directory") None [] available.

(** ** Further observations *)

Definition isReboot (e : event) : bool :=
  match e with CallReboot _ _ => true | _ => false end.

Definition isStderr (e : event) : bool :=
  match e with Print _ Stderr _ => true | _ => false end.

(** An event that is a call to the control plane names the instance [id],
    and a reboot forces the failover. *)
Definition targets (id : string) (e : event) : Prop :=
  match e with
  | CallDescribe i => i = id
  | CallReboot i force => i = id /\ force = true
  | _ => True
  end.

(** An event that is not a call to the control plane at all. *)
Definition offline (e : event) : Prop :=
  match e with
  | CallDescribe _ | CallReboot _ _ => False
  | _ => True
  end.

(** Whatever the state it starts from, [m] only adds events that satisfy
    [P] to the trace, and removes none. *)
Definition emitsOnly {A} (P : event -> Prop) (m : M A) : Prop :=
  forall st,
    exists delta,
      trace (snd (m st)) = trace st ++ delta /\
      Forall (fun x => P (snd x)) delta.

(** The error with which the recovery loop ends on an answer that carries
    no instance, if it is such an answer. *)
Definition failureOf (r : describeResult) : option string :=
  match r with
  | inr e => Some ("error describing DB instance: " ^^ e)
  | inl [] => Some "no DB instance found"
  | inl (_ :: _) => None
  end.

(** The state in which [main] enters the function of the mode [mode], when
    the configuration was loaded. *)
Definition dispatched (mode : string) (st : state) : state :=
  mkState (calls st) (clock st)
    (trace st ++
     [(clock st, Print header Stdout ("RDS Failover Simulation Tool" ^^ nl));
      (clock st, Print info Stdout ("Mode: " ^^ mode ^^ nl))]).

(** ** Further scenarios *)

(** The instance never leaves the rebooting state. *)
Definition scenarioStuck : Env := scripted (inl "{}") None [] rebooting.

(** The credentials of the control plane cannot be loaded. *)
Definition scenarioNoCredentials : Env :=
  mkEnv (fun _ => inl "{}") (fun _ => inl config1) (Some "no credentials")
        (fun _ _ => None) (fun _ _ => available).

(** The configuration file is not valid JSON. *)
Definition scenarioBadJson : Env :=
  mkEnv (fun _ => inl "{") (fun _ => inr "unexpected end of JSON input") None
        (fun _ _ => None) (fun _ _ => available).

(** An answer whose first instance has no status. *)
Definition scenarioNoStatus : Env :=
  scripted (inl "{}") None [] (inl [mkDBInstance None (Some "us-east-1a")]).

(** A rebooting answer without zone, then an available one without zone. *)
Definition scenarioNoZone : Env :=
  scripted (inl "{}") None [inl [mkDBInstance (Some "rebooting") None]]
    (inl [mkDBInstance (Some "available") None]).

(** An answer whose only instance has neither status nor zone. *)
Definition scenarioBare : Env :=
  scripted (inl "{}") None [] (inl [mkDBInstance None None]).

(** * The infrastructure program: [main.go] and the VPC builder *)

Module Infra.

(** The values handed to the resource constructors: literals, outputs of
    other resources ([vpc.ID()] is [VOutput "rds-vpc" "id"]), secrets of the
    stack configuration, arrays, and argument structs and string maps as
    lists of named fields. *)
#[local] Set Warnings "-register-all".

Inductive value :=
| VString (s : string)
| VInt (n : Z)
| VBool (b : bool)
| VOutput (resource attribute : string)
| VSecret (key : string)
| VArray (items : list value)
| VStruct (fields : list (string * value)).

Definition ID (resource : string) : value := VOutput resource "id".

(** The calls the program makes to its collaborators, in order. *)
Inductive call :=
| HttpGet (url : string)
| GetRegion
| New (kind name : string) (args : list (string * value))
| RequireSecret (key : string)
| Export (name : string) (v : value).

(** The collaborators: [httpGet url] is the outcome of [http.Get] followed
    by [io.ReadAll] of the body ([inr e]: the request failed; [inl (inr e)]:
    reading the body failed; [inl (inl body)]: the body); [TrimSpace] is
    [strings.TrimSpace]; [newResource] is the error of a resource
    constructor, [configured] tells whether a configuration key is set. *)
Record World := mkWorld {
  httpGet : string -> (string + string) + string;
  TrimSpace : string -> string;
  getRegion : error;
  newResource : string -> string -> list (string * value) -> error;
  configured : string -> bool
}.

(** Computations that log their calls. *)
Definition Run (A : Type) : Type := list call -> res A * list call.

Definition pure {A} (a : A) : Run A := fun log => (Ret a, log).

Definition andThen {A B} (m : Run A) (k : A -> Run B) : Run B :=
  fun log =>
    match m log with
    | (Ret a, log') => k a log'
    | (Panic, log') => (Panic, log')
    | (OutOfFuel, log') => (OutOfFuel, log')
    end.

Notation "x <~ m ;; k" := (andThen m (fun x => k))
  (at level 61, m at next level, right associativity).

Definition record (c : call) : Run unit :=
  fun log => (Ret tt, log ++ [c]).

Definition crash {A} : Run A := fun log => (Panic, log).

(** [type VpcResources struct]; the VPC is held by its resource name. *)
Record VpcResources := mkVpcResources {
  Vpc : string;
  PublicSubnetId : value;
  PrivateSubnetIds : list value;
  DefaultSecurityGroupId : value
}.

Section Program.

Variable w : World.

(** A resource constructor [ec2.NewVpc(ctx, name, args)] and the like. *)
Definition new (kind name : string) (args : list (string * value)) : Run error :=
  _ <~ record (New kind name args) ;; pure (newResource w kind name args).

(** [conf.RequireSecret(key)]: panics when the key is not set. *)
Definition requireSecret (key : string) : Run value :=
  _ <~ record (RequireSecret key) ;;
  if configured w key then pure (VSecret key) else crash.

Definition export (name : string) (v : value) : Run unit :=
  record (Export name v).

Definition getCurrentIP : Run (string * error) :=
  _ <~ record (HttpGet "https://checkip.amazonaws.com") ;;
  match httpGet w "https://checkip.amazonaws.com" with
  | inr err => pure ("", Some ("error getting public IP: " ^^ err))
  | inl (inr err) => pure ("", Some ("error reading IP response: " ^^ err))
  | inl (inl ip) => pure (TrimSpace w ip ^^ "/32", None)
  end.

Definition tags (name : string) : string * value :=
  ("Tags", VStruct [("Name", VString name)]).

Definition createVpcResources : Run (option VpcResources * error) :=
  r <~ getCurrentIP ;;
  let (currentIP, err) := r in
  match err with
  | Some e => pure (None, Some ("error getting current IP: " ^^ e))
  | None =>
  err <~ new "ec2.Vpc" "rds-vpc"
           [("CidrBlock", VString "10.0.0.0/16");
            ("EnableDnsHostnames", VBool true);
            ("EnableDnsSupport", VBool true);
            tags "rds-vpc"] ;;
  match err with Some e => pure (None, Some e) | None =>
  err <~ new "ec2.InternetGateway" "rds-igw"
           [("VpcId", ID "rds-vpc"); tags "rds-igw"] ;;
  match err with Some e => pure (None, Some e) | None =>
  err <~ new "ec2.Subnet" "public-subnet"
           [("VpcId", ID "rds-vpc");
            ("CidrBlock", VString "10.0.1.0/24");
            ("AvailabilityZone", VString "us-east-1a");
            tags "rds-public-subnet"] ;;
  match err with Some e => pure (None, Some e) | None =>
  err <~ new "ec2.Subnet" "private-subnet-1"
           [("VpcId", ID "rds-vpc");
            ("CidrBlock", VString "10.0.2.0/24");
            ("AvailabilityZone", VString "us-east-1a");
            tags "rds-private-subnet-1"] ;;
  match err with Some e => pure (None, Some e) | None =>
  err <~ new "ec2.Subnet" "private-subnet-2"
           [("VpcId", ID "rds-vpc");
            ("CidrBlock", VString "10.0.3.0/24");
            ("AvailabilityZone", VString "us-east-1b");
            tags "rds-private-subnet-2"] ;;
  match err with Some e => pure (None, Some e) | None =>
  err <~ new "ec2.RouteTable" "public-rt"
           [("VpcId", ID "rds-vpc");
            ("Routes",
             VArray [VStruct [("CidrBlock", VString "0.0.0.0/0");
                              ("GatewayId", ID "rds-igw")]]);
            tags "rds-public-rt"] ;;
  match err with Some e => pure (None, Some e) | None =>
  err <~ new "ec2.RouteTableAssociation" "public-rta"
           [("SubnetId", ID "public-subnet");
            ("RouteTableId", ID "public-rt")] ;;
  match err with Some e => pure (None, Some e) | None =>
  err <~ new "ec2.SecurityGroup" "rds-sg"
           [("VpcId", ID "rds-vpc");
            ("Ingress",
             VArray [VStruct [("Protocol", VString "tcp");
                              ("FromPort", VInt 3306);
                              ("ToPort", VInt 3306);
                              ("CidrBlocks", VArray [VString currentIP])];
                     VStruct [("Protocol", VString "tcp");
                              ("FromPort", VInt 3306);
                              ("ToPort", VInt 3306);
                              ("CidrBlocks", VArray [VString currentIP])]]);
            ("Egress",
             VArray [VStruct [("Protocol", VString "-1");
                              ("FromPort", VInt 0);
                              ("ToPort", VInt 0);
                              ("CidrBlocks", VArray [VString "0.0.0.0/0"])]]);
            tags "rds-sg"] ;;
  match err with Some e => pure (None, Some e) | None =>
  pure (Some (mkVpcResources "rds-vpc" (ID "public-subnet")
                [ID "private-subnet-1"; ID "private-subnet-2"]
                (ID "rds-sg")),
        None)
  end end end end end end end end
  end.

(** The function handed to [pulumi.Run]. *)
Definition program : Run error :=
  _ <~ record GetRegion ;;
  match getRegion w with Some e => pure (Some e) | None =>
  r <~ createVpcResources ;;
  match r with
  | (_, Some e) => pure (Some e)
  | (None, None) => crash
  | (Some vpc, None) =>
  err <~ new "rds.SubnetGroup" "rds-subnet-group"
           [("SubnetIds", VArray (PrivateSubnetIds vpc));
            tags "rds-subnet-group"] ;;
  match err with Some e => pure (Some e) | None =>
  dbPassword <~ requireSecret "dbPassword" ;;
  err <~ new "rds.Instance" "rds-instance"
           [("Engine", VString "mysql");
            ("EngineVersion", VString "8.4");
            ("InstanceClass", VString "db.t3.micro");
            ("AllocatedStorage", VInt 20);
            ("Username", VString "admin");
            ("Password", dbPassword);
            ("MultiAz", VBool true);
            ("DbSubnetGroupName", VOutput "rds-subnet-group" "name");
            ("PubliclyAccessible", VBool false);
            ("SkipFinalSnapshot", VBool true);
            ("VpcSecurityGroupIds", VArray [DefaultSecurityGroupId vpc]);
            tags "rds-multi-az"] ;;
  match err with Some e => pure (Some e) | None =>
  _ <~ export "vpcId" (ID (Vpc vpc)) ;;
  _ <~ export "rdsEndpoint" (VOutput "rds-instance" "endpoint") ;;
  _ <~ export "rdsPort" (VOutput "rds-instance" "port") ;;
  _ <~ export "rdsIdentifier" (ID "rds-instance") ;;
  pure None
  end end end end.

(** [main]: [pulumi.Run] runs the program; its error, if any, ends the
    process. *)
Definition main : Run error := program.

End Program.

(** *** Observations on logs *)

(** The names of the resources whose construction was asked for. *)
Fixpoint constructed (log : list call) : list string :=
  match log with
  | [] => []
  | New _ name _ :: rest => name :: constructed rest
  | _ :: rest => constructed rest
  end.

Fixpoint exported (log : list call) : list string :=
  match log with
  | [] => []
  | Export name _ :: rest => name :: exported rest
  | _ :: rest => exported rest
  end.

(** The order in which the program constructs its resources. *)
Definition order : list string :=
  ["rds-vpc"; "rds-igw"; "public-subnet"; "private-subnet-1";
   "private-subnet-2"; "public-rt"; "public-rta"; "rds-sg";
   "rds-subnet-group"; "rds-instance"].

(** The resources whose outputs a value mentions. *)
Fixpoint mentions (v : value) : list string :=
  match v with
  | VOutput resource _ => [resource]
  | VArray items => flat_map mentions items
  | VStruct fields => flat_map (fun f => mentions (snd f)) fields
  | _ => []
  end.

(** Every output mentioned in the arguments of a constructor, or exported,
    belongs to a resource constructed earlier in the log ([known]: the
    resources constructed before the log starts). *)
Fixpoint scoped (known : list string) (log : list call) : bool :=
  match log with
  | [] => true
  | New _ name args :: rest =>
      forallb (fun r => existsb (String.eqb r) known)
              (flat_map (fun f => mentions (snd f)) args)
      && scoped (name :: known) rest
  | Export _ v :: rest =>
      forallb (fun r => existsb (String.eqb r) known) (mentions v)
      && scoped known rest
  | _ :: rest => scoped known rest
  end.

(** The CIDR blocks of the ingress rules of the security groups
    constructed in a log. *)
Definition valuesOf (name : string) (fields : list (string * value)) : list value :=
  map snd (filter (fun f => String.eqb (fst f) name) fields).

Definition elements (v : value) : list value :=
  match v with VArray items => items | _ => [] end.

Definition members (v : value) : list (string * value) :=
  match v with VStruct fields => fields | _ => [] end.

Fixpoint ingressCidrs (log : list call) : list value :=
  match log with
  | [] => []
  | New "ec2.SecurityGroup" _ args :: rest =>
      flat_map (fun rule => flat_map elements (valuesOf "CidrBlocks" (members rule)))
               (flat_map elements (valuesOf "Ingress" args))
      ++ ingressCidrs rest
  | _ :: rest => ingressCidrs rest
  end.

(** A world in which everything succeeds and the address service answers
    [body]. *)
Definition fairWeather (body : string) : World :=
  mkWorld (fun _ => inl (inl body)) (fun s => s) None (fun _ _ _ => None)
          (fun _ => true).

(** A world in which the constructor of the resource [name] fails. *)
Definition failingAt (name : string) : World :=
  mkWorld (fun _ => inl (inl "203.0.113.7")) (fun s => s) None
          (fun _ n _ => if String.eqb n name then Some "quota exceeded" else None)
          (fun _ => true).

(** A world in which the address service cannot be reached. *)
Definition offlineWorld : World :=
  mkWorld (fun _ => inr "dial tcp: no route to host") (fun s => s) None
          (fun _ _ _ => None) (fun _ => true).

(** A world in which the database password is not configured. *)
Definition noPassword : World :=
  mkWorld (fun _ => inl (inl "203.0.113.7")) (fun s => s) None
          (fun _ _ _ => None) (fun _ => false).

End Infra.

(** ** Classification *)

Lemma existsb_eqb_In (s : string) (l : list string) :
  existsb (String.eqb s) l = true <-> In s l.
Proof.
  rewrite existsb_exists. split.
  - intros (x & Hx & E). apply String.eqb_eq in E. now subst.
  - intros H. exists s. split; [assumption | apply String.eqb_refl].
Qed.

Lemma classify_cases (s : string) :
  classify s =
  if s =? "available" then Healthy
  else if (s =? "rebooting") || (s =? "modifying") then Transitional
  else Unknown.
Proof.
  unfold classify, healthySet, transitionalSet. simpl.
  rewrite !orb_false_r. reflexivity.
Qed.

(** ** Running the printers *)

Ltac run_monad :=
  unfold field, deref, Printf, Println, Fprintf, sleep, advance, emit, now,
         panic, bind, ret; simpl.

Ltac norm_trace :=
  repeat (progress (cbn [calls clock trace]; rewrite <- ?app_assoc));
  cbn [app].

Lemma printStatus_run (status az : string) (st : state) :
  printStatus status az st =
    (Ret tt,
     mkState (calls st) (clock st)
       (trace st ++
        [(clock st, Stamp (clock st) " ");
         (clock st, Print (treatment (classify status)) Stdout (padRight 12 status));
         (clock st, Print info Stdout (" AZ: " ^^ az ^^ nl))])).
Proof.
  unfold printStatus. run_monad. rewrite classify_cases.
  destruct (status =? "available");
    [ | destruct ((status =? "rebooting") || (status =? "modifying"))];
    simpl; rewrite <- !app_assoc; reflexivity.
Qed.

Lemma printFailoverStatus_run (status : string) (st : state) :
  printFailoverStatus status st =
    (Ret tt,
     mkState (calls st) (clock st)
       (trace st ++
        [(clock st, Stamp (clock st) " Status: ");
         (clock st, Print (treatment (classify status)) Stdout (status ^^ nl))])).
Proof.
  unfold printFailoverStatus. run_monad. rewrite classify_cases.
  destruct (status =? "available");
    [ | destruct ((status =? "rebooting") || (status =? "modifying"))];
    simpl; rewrite <- !app_assoc; reflexivity.
Qed.

Lemma classify_healthy (s : string) :
  classify s = Healthy <-> (s =? "available") = true.
Proof.
  rewrite classify_cases.
  destruct (s =? "available");
    [ | destruct ((s =? "rebooting") || (s =? "modifying"))];
    split; congruence.
Qed.

(** ** Observations along a run *)

Lemma timesOf_app (p : event -> bool) (a b : list (Z * event)) :
  timesOf p (a ++ b) = timesOf p a ++ timesOf p b.
Proof. unfold timesOf. rewrite filter_app, map_app. reflexivity. Qed.

Lemma timesOf_cons (p : event -> bool) (t : Z) (e : event) (l : list (Z * event)) :
  timesOf p ((t, e) :: l) = if p e then t :: timesOf p l else timesOf p l.
Proof. unfold timesOf. simpl. destruct (p e); reflexivity. Qed.

Lemma timesOf_nil (p : event -> bool) : timesOf p [] = [].
Proof. reflexivity. Qed.

Lemma isReport_treatment (c : StatusCategory) (s : string) :
  isReport (Print (treatment c) Stdout s) = true.
Proof. destruct c; reflexivity. Qed.

Lemma everyFrom_length (t d : Z) (n : nat) : length (everyFrom t d n) = n.
Proof.
  revert t. induction n as [| n IH]; intros t; simpl; [reflexivity | ].
  now rewrite IH.
Qed.

Lemma everyFrom_snoc (t d : Z) (n : nat) :
  everyFrom t d (S n) = everyFrom t d n ++ [(t + d * Z.of_nat n)%Z].
Proof.
  revert t. induction n as [| n IH]; intros t.
  - simpl. f_equal. lia.
  - change (everyFrom t d (S (S n))) with (t :: everyFrom (t + d)%Z d (S n)).
    rewrite IH. simpl. do 3 f_equal. lia.
Qed.

Lemma everyFrom_nth (t d : Z) (n j : nat) :
  j < n -> nth j (everyFrom t d n) 0%Z = (t + d * Z.of_nat j)%Z.
Proof.
  revert t j. induction n as [| n IH]; intros t j Hj; [lia | ].
  destruct j as [| j]; simpl.
  - lia.
  - rewrite IH by lia. lia.
Qed.

Section Runs.

Variable env : Env.

(** *** One turn of the monitor loop *)

Lemma monitorBody_error (c : SimulationConfig) (st : state) (e : string) :
  describeDBInstances env (calls st) (DBIdentifier c) = inr e ->
  monitorBody env (Some c) st =
    (Ret tt,
     mkState (S (calls st)) (clock st)
       (trace st ++
        [(clock st, CallDescribe (DBIdentifier c));
         (clock st, Print failure Stdout ("Error checking RDS: " ^^ e ^^ nl))])).
Proof.
  intros H. unfold monitorBody, getRDSStatus, callDescribe. run_monad.
  rewrite H. simpl. rewrite <- !app_assoc. reflexivity.
Qed.

Lemma monitorBody_not_found (c : SimulationConfig) (st : state) :
  describeDBInstances env (calls st) (DBIdentifier c) = inl [] ->
  monitorBody env (Some c) st =
    (Ret tt,
     mkState (S (calls st)) (clock st)
       (trace st ++
        [(clock st, CallDescribe (DBIdentifier c));
         (clock st,
          Print failure Stdout ("Error checking RDS: " ^^ "no DB instance found" ^^ nl))])).
Proof.
  intros H. unfold monitorBody, getRDSStatus, callDescribe. run_monad.
  rewrite H. simpl. rewrite <- !app_assoc. reflexivity.
Qed.

Lemma monitorBody_success (c : SimulationConfig) (st : state)
    (status az : string) (others : list DBInstance) :
  describeDBInstances env (calls st) (DBIdentifier c) =
    inl (mkDBInstance (Some status) (Some az) :: others) ->
  monitorBody env (Some c) st =
    (Ret tt,
     mkState (S (calls st)) (clock st)
       (trace st ++
        [(clock st, CallDescribe (DBIdentifier c));
         (clock st, Stamp (clock st) " ");
         (clock st, Print (treatment (classify status)) Stdout (padRight 12 status));
         (clock st, Print info Stdout (" AZ: " ^^ az ^^ nl))])).
Proof.
  intros H. unfold monitorBody, getRDSStatus, callDescribe, field, deref, bind, ret.
  simpl. rewrite H. simpl. rewrite printStatus_run. simpl.
  rewrite <- !app_assoc. reflexivity.
Qed.

(** Whatever a well-formed answer is, the turn ends normally after one
    describe call and one report, both at the current instant. *)
Lemma monitorBody_continues (c : SimulationConfig) (st : state) :
  wellFormed (describeDBInstances env (calls st) (DBIdentifier c)) = true ->
  exists st1,
    monitorBody env (Some c) st = (Ret tt, st1) /\
    calls st1 = S (calls st) /\
    clock st1 = clock st /\
    describeTimes (trace st1) = describeTimes (trace st) ++ [clock st] /\
    reportTimes (trace st1) = reportTimes (trace st) ++ [clock st].
Proof.
  intros W.
  destruct (describeDBInstances env (calls st) (DBIdentifier c))
    as [[| [[status |] [az |]] others] | e] eqn:E; simpl in W; try discriminate W.
  - eexists. split; [apply monitorBody_not_found; exact E | ].
    cbn [calls clock trace]. unfold describeTimes, reportTimes.
    rewrite !timesOf_app. simpl. auto.
  - eexists. split; [eapply monitorBody_success; exact E | ].
    cbn [calls clock trace]. unfold describeTimes, reportTimes.
    rewrite !timesOf_app, !timesOf_cons, !timesOf_nil, isReport_treatment.
    simpl. auto.
  - eexists. split; [apply monitorBody_error; exact E | ].
    cbn [calls clock trace]. unfold describeTimes, reportTimes.
    rewrite !timesOf_app. simpl. auto.
Qed.

(** *** The monitor loop *)

Lemma rangeTicker_step (n : nat) (d : Z) (body : M unit) (st : state) :
  rangeTicker (S n) d body st =
    (body ;; rangeTicker n d body)
      (mkState (calls st) (clock st + d) (trace st ++ [((clock st + d)%Z, TickerRecv d)])).
Proof. reflexivity. Qed.

(** With well-formed answers the loop is still running after any number
    [n] of turns, having made [n] describe calls and [n] reports, one per
    period, the first of them one period after the start. *)
Lemma monitor_loop_runs (c : SimulationConfig) (d : Z) (n : nat) :
  forall st,
    (forall j, j < n ->
       wellFormed (describeDBInstances env (calls st + j) (DBIdentifier c)) = true) ->
    exists st',
      rangeTicker n d (monitorBody env (Some c)) st = (OutOfFuel, st') /\
      calls st' = calls st + n /\
      clock st' = (clock st + d * Z.of_nat n)%Z /\
      describeTimes (trace st') =
        describeTimes (trace st) ++ everyFrom (clock st + d) d n /\
      reportTimes (trace st') =
        reportTimes (trace st) ++ everyFrom (clock st + d) d n.
Proof.
  induction n as [| n IH]; intros st W.
  - exists st. simpl. rewrite !app_nil_r. repeat split; try lia. 
  - rewrite rangeTicker_step.
    set (st1 := mkState (calls st) (clock st + d)
                  (trace st ++ [((clock st + d)%Z, TickerRecv d)])).
    destruct (monitorBody_continues c st1) as (st2 & R & C2 & K2 & D2 & P2).
    { subst st1. cbn [calls]. specialize (W 0). rewrite Nat.add_0_r in W.
      apply W. lia. }
    destruct (IH st2) as (st' & R' & C' & K' & D' & P').
    { intros j Hj. rewrite C2. subst st1. cbn [calls].
      replace (S (calls st) + j) with (calls st + S j) by lia.
      apply W. lia. }
    exists st'. unfold bind at 1. rewrite R, R'.
    rewrite C', K', D', P', C2, K2, D2, P2. subst st1. cbn [calls clock trace].
    unfold describeTimes, reportTimes.
    rewrite !timesOf_app, !timesOf_cons, !timesOf_nil. simpl.
    rewrite !app_nil_r, <- !app_assoc. simpl.
    repeat split; try lia.
Qed.

(** The loop is never left normally, whatever the answers: the statement
    after it is not reached. *)
Lemma monitor_loop_never_exits (sc : option SimulationConfig) (d : Z) (n : nat) :
  forall st st', rangeTicker n d (monitorBody env sc) st <> (Ret tt, st').
Proof.
  induction n as [| n IH]; intros st st'.
  - discriminate.
  - rewrite rangeTicker_step. unfold bind at 1.
    destruct (monitorBody env sc _) as [[[] | |] st2]; try discriminate.
    apply IH.
Qed.

Lemma monitorDatabase_never_nil (fuel : nat) (sc : option SimulationConfig)
    (st st' : state) :
  monitorDatabase env fuel sc st <> (Ret None, st').
Proof.
  unfold monitorDatabase, callLoadDefaultConfig. destruct sc as [c |].
  - run_monad. destruct (loadDefaultConfig env) as [e |]; [discriminate | ].
    match goal with
    | |- context [rangeTicker fuel ?d ?b ?s] =>
        pose proof (monitor_loop_never_exits (Some c) d fuel s) as N;
        destruct (rangeTicker fuel d b s) as [[[] | |] st2]
    end; try discriminate.
    exfalso. exact (N st2 eq_refl).
  - run_monad. discriminate.
Qed.

(** *** One turn of the recovery loop *)

Lemma failoverBody_error (id : string) (st : state) (e : string) :
  describeDBInstances env (calls st) id = inr e ->
  failoverBody env id st =
    (Ret (Return (Some ("error describing DB instance: " ^^ e))),
     mkState (S (calls st)) (clock st) (trace st ++ [(clock st, CallDescribe id)])).
Proof.
  intros H. unfold failoverBody, callDescribe. run_monad. rewrite H. reflexivity.
Qed.

Lemma failoverBody_not_found (id : string) (st : state) :
  describeDBInstances env (calls st) id = inl [] ->
  failoverBody env id st =
    (Ret (Return (Some "no DB instance found")),
     mkState (S (calls st)) (clock st) (trace st ++ [(clock st, CallDescribe id)])).
Proof.
  intros H. unfold failoverBody, callDescribe. run_monad. rewrite H. reflexivity.
Qed.

Lemma failoverBody_available (id : string) (st : state)
    (az : option string) (others : list DBInstance) :
  describeDBInstances env (calls st) id =
    inl (mkDBInstance (Some "available") az :: others) ->
  failoverBody env id st =
    (Ret (Return None),
     mkState (S (calls st)) (clock st)
       (trace st ++
        [(clock st, CallDescribe id);
         (clock st, Stamp (clock st) " Status: ");
         (clock st, Print success Stdout ("available" ^^ nl));
         (clock st, Print success Stdout ("Failover completed successfully" ^^ nl))])).
Proof.
  intros H. unfold failoverBody, callDescribe, deref, bind, ret.
  rewrite H. cbn [DBInstanceStatus]. rewrite printFailoverStatus_run.
  run_monad. rewrite <- !app_assoc. reflexivity.
Qed.

Lemma failoverBody_other (id : string) (st : state) (status : string)
    (az : option string) (others : list DBInstance) :
  describeDBInstances env (calls st) id =
    inl (mkDBInstance (Some status) az :: others) ->
  (status =? "available") = false ->
  failoverBody env id st =
    (Ret Continue,
     mkState (S (calls st)) (clock st + 10 * Second)
       (trace st ++
        [(clock st, CallDescribe id);
         (clock st, Stamp (clock st) " Status: ");
         (clock st, Print (treatment (classify status)) Stdout (status ^^ nl));
         (clock st, Sleep (10 * Second))])).
Proof.
  intros H N. unfold failoverBody, callDescribe, deref, bind, ret.
  rewrite H. cbn [DBInstanceStatus]. rewrite printFailoverStatus_run, N.
  unfold sleep, advance, emit, bind, ret. cbn [calls clock trace].
  rewrite <- !app_assoc. reflexivity.
Qed.

Lemma healthy_inv (r : describeResult) :
  healthy r = true ->
  exists az others, r = inl (mkDBInstance (Some "available") az :: others).
Proof.
  unfold healthy, observed.
  destruct r as [[| [[s |] az] others] | e]; simpl; try discriminate.
  destruct (classify s) eqn:C; try discriminate. intros _.
  apply classify_healthy, String.eqb_eq in C. subst s. eauto.
Qed.

Lemma pending_inv (r : describeResult) :
  pending r = true ->
  exists status az others,
    r = inl (mkDBInstance (Some status) az :: others) /\
    (status =? "available") = false.
Proof.
  unfold pending, observed.
  destruct r as [[| [[s |] az] others] | e]; simpl; try discriminate.
  intros H. exists s, az, others. split; [reflexivity | ].
  destruct (s =? "available") eqn:E; [ | reflexivity].
  apply classify_healthy in E. rewrite E in H. discriminate.
Qed.

(** A pending answer: one describe call and one report now, then a sleep
    of ten seconds, and the loop goes on. *)
Lemma failoverBody_pending (id : string) (st : state) :
  pending (describeDBInstances env (calls st) id) = true ->
  exists st1,
    failoverBody env id st = (Ret Continue, st1) /\
    calls st1 = S (calls st) /\
    clock st1 = (clock st + 10 * Second)%Z /\
    describeTimes (trace st1) = describeTimes (trace st) ++ [clock st] /\
    reportTimes (trace st1) = reportTimes (trace st) ++ [clock st].
Proof.
  intros H. apply pending_inv in H. destruct H as (s & az & others & E & N).
  eexists. split; [eapply failoverBody_other; eassumption | ].
  cbn [calls clock trace]. unfold describeTimes, reportTimes.
  rewrite !timesOf_app, !timesOf_cons, !timesOf_nil, isReport_treatment.
  simpl. auto.
Qed.

(** *** The recovery loop *)

(** [k] pending answers in a row are [k] turns of the loop. *)
Lemma forever_pending (id : string) (k : nat) :
  forall n st,
    (forall j, j < k -> pending (describeDBInstances env (calls st + j) id) = true) ->
    exists st1,
      forever (k + n) (failoverBody env id) st = forever n (failoverBody env id) st1 /\
      calls st1 = calls st + k /\
      clock st1 = (clock st + 10 * Second * Z.of_nat k)%Z /\
      describeTimes (trace st1) =
        describeTimes (trace st) ++ everyFrom (clock st) (10 * Second) k /\
      reportTimes (trace st1) =
        reportTimes (trace st) ++ everyFrom (clock st) (10 * Second) k.
Proof.
  induction k as [| k IH]; intros n st P.
  - exists st. simpl. rewrite !app_nil_r. repeat split; lia.
  - destruct (failoverBody_pending id st) as (st1 & R & C1 & K1 & D1 & P1).
    { specialize (P 0). rewrite Nat.add_0_r in P. apply P. lia. }
    destruct (IH n st1) as (st2 & R2 & C2 & K2 & D2 & P2).
    { intros j Hj. rewrite C1.
      replace (S (calls st) + j) with (calls st + S j) by lia. apply P. lia. }
    exists st2. change (S k + n) with (S (k + n)).
    cbn [forever]. unfold bind at 1. rewrite R, R2.
    split; [reflexivity | ].
    rewrite C2, K2, D2, P2, C1, K1, D1, P1.
    cbn [everyFrom]. rewrite <- !app_assoc. cbn [app].
    repeat split; lia.
Qed.

(** *** Entering the loops *)

Lemma monitorDatabase_enters (fuel : nat) (c : SimulationConfig) (st : state) :
  loadDefaultConfig env = None ->
  monitorDatabase env fuel (Some c) st =
    (rangeTicker fuel (5 * Second) (monitorBody env (Some c)) ;; ret None)
      (mkState (calls st) (clock st)
         (trace st ++
          [(clock st, Print success Stdout ("Starting RDS monitoring..." ^^ nl));
           (clock st, Print info Stdout ("Instance: " ^^ DBIdentifier c ^^ nl));
           (clock st, Print info Stdout ("Endpoint: " ^^ Endpoint c ^^ nl));
           (clock st, CallLoadDefaultConfig)])).
Proof.
  intros H. unfold monitorDatabase, callLoadDefaultConfig.
  unfold field, deref, Println, Printf, emit, bind, ret. cbn [calls clock trace].
  rewrite H. norm_trace. reflexivity.
Qed.

Lemma monitorDatabase_runs_on (fuel : nat) (c : SimulationConfig)
    (st st' : state) (r : error) :
  loadDefaultConfig env = None ->
  monitorDatabase env fuel (Some c) st <> (Ret r, st').
Proof.
  intros H. rewrite (monitorDatabase_enters fuel c st H). unfold bind at 1.
  match goal with
  | |- context [rangeTicker fuel ?d ?b ?s] =>
      pose proof (monitor_loop_never_exits (Some c) d fuel s) as N;
      destruct (rangeTicker fuel d b s) as [[[] | |] st2]
  end; try discriminate.
  exfalso. exact (N st2 eq_refl).
Qed.

Lemma monitorFailoverStatus_enters (fuel : nat) (id : string) (st : state) :
  monitorFailoverStatus env fuel id st =
    forever fuel (failoverBody env id)
      (mkState (calls st) (clock st)
         (trace st ++
          [(clock st, Print header Stdout ("Monitoring failover status..." ^^ nl))])).
Proof. reflexivity. Qed.

Lemma triggerFailover_enters (fuel : nat) (c : SimulationConfig) (st : state) :
  loadDefaultConfig env = None ->
  rebootDBInstance env (DBIdentifier c) true = None ->
  triggerFailover env fuel (Some c) st =
    monitorFailoverStatus env fuel (DBIdentifier c)
      (mkState (calls st) (clock st)
         (trace st ++
          [(clock st, Print warning Stdout ("Initiating failover simulation..." ^^ nl));
           (clock st, Print info Stdout ("Target instance: " ^^ DBIdentifier c ^^ nl));
           (clock st, CallLoadDefaultConfig);
           (clock st, CallReboot (DBIdentifier c) true);
           (clock st, Print success Stdout ("Failover initiated successfully" ^^ nl))])).
Proof.
  intros H R. unfold triggerFailover, callLoadDefaultConfig, callReboot.
  unfold field, deref, Println, Printf, emit, bind, ret. cbn [calls clock trace].
  rewrite H, R. norm_trace. reflexivity.
Qed.

(** After [k] pending answers the recovery loop ends on the first answer
    that is not one, with whatever that turn returns. *)
Lemma monitorFailoverStatus_ends (id : string) (k n : nat) (st : state) :
  (forall j, j < k -> pending (describeDBInstances env (calls st + j) id) = true) ->
  exists st1,
    monitorFailoverStatus env (k + S n) id st =
      (c <- failoverBody env id ;;
       match c with
       | Continue => forever n (failoverBody env id)
       | Return a => ret a
       end) st1 /\
    calls st1 = calls st + k /\
    clock st1 = (clock st + 10 * Second * Z.of_nat k)%Z /\
    describeTimes (trace st1) =
      describeTimes (trace st) ++ everyFrom (clock st) (10 * Second) k /\
    reportTimes (trace st1) =
      reportTimes (trace st) ++ everyFrom (clock st) (10 * Second) k.
Proof.
  intros P. rewrite monitorFailoverStatus_enters.
  match goal with
  | |- context [forever _ _ ?s] =>
      destruct (forever_pending id k (S n) s) as (st1 & R & C1 & K1 & D1 & P1)
  end.
  { exact P. }
  exists st1. rewrite R. split; [reflexivity | ].
  rewrite C1, K1, D1, P1. cbn [calls clock trace].
  unfold describeTimes, reportTimes.
  rewrite !timesOf_app, !timesOf_cons, !timesOf_nil. simpl.
  rewrite !app_nil_r. auto.
Qed.

End Runs.

(** C2.  The switch of [printStatus] and of [printFailoverStatus] is the
    classification of the specification: both functions return normally on
    every status string and print it with the printer of its category;
    a string is [Healthy] exactly when it is in the healthy set,
    [Transitional] exactly when it is in the transitional set (rebooting,
    modifying), and [Unknown] exactly when it is in neither, which is the
    case of the empty string. *)
Theorem C2_classification_total (status az : string) (st : state) :
  (classify status = Healthy <-> In status healthySet) /\
  (classify status = Transitional <-> In status transitionalSet) /\
  (classify status = Unknown <->
     ~ In status healthySet /\ ~ In status transitionalSet) /\
  classify "" = Unknown /\
  printStatus status az st =
    (Ret tt,
     mkState (calls st) (clock st)
       (trace st ++
        [(clock st, Stamp (clock st) " ");
         (clock st, Print (treatment (classify status)) Stdout (padRight 12 status));
         (clock st, Print info Stdout (" AZ: " ^^ az ^^ nl))])) /\
  printFailoverStatus status st =
    (Ret tt,
     mkState (calls st) (clock st)
       (trace st ++
        [(clock st, Stamp (clock st) " Status: ");
         (clock st, Print (treatment (classify status)) Stdout (status ^^ nl))])).
Proof.
  assert (HH : classify status = Healthy <-> In status healthySet).
  { unfold classify. rewrite <- existsb_eqb_In.
    destruct (existsb (String.eqb status) healthySet);
      [ | destruct (existsb (String.eqb status) transitionalSet)];
      split; congruence. }
  assert (HT : classify status = Transitional <-> In status transitionalSet).
  { unfold classify. rewrite <- (existsb_eqb_In status transitionalSet).
    destruct (existsb (String.eqb status) healthySet) eqn:E.
    - split; [congruence | ]. intros H. exfalso.
      apply existsb_eqb_In in E, H. simpl in E, H.
      destruct E as [E | []]. subst status.
      destruct H as [H | [H | []]]; discriminate H.
    - destruct (existsb (String.eqb status) transitionalSet);
        split; congruence. }
  assert (HU : classify status = Unknown <->
               ~ In status healthySet /\ ~ In status transitionalSet).
  { rewrite <- HH, <- HT. destruct (classify status); split;
      try congruence; try (intros [A B]; congruence);
      intros _; split; congruence. }
  split; [exact HH | ]. split; [exact HT | ]. split; [exact HU | ].
  split; [reflexivity | ]. split.
  - apply printStatus_run.
  - apply printFailoverStatus_run.
Qed.

(** ** No instance found *)

(** C1, as stated, fails in monitor mode.  In scenario D the first describe
    call finds no instance; two turns of the monitor loop later the error
    line has been printed, a second describe call has been made and its
    status reported, and the loop is still running; and with no budget at
    all does [monitorDatabase] return, with or without an error. *)
Lemma C1_monitor_goes_on_after_not_found :
  monitorDatabase scenarioD 2 (Some config1) st0 =
    (OutOfFuel,
     mkState 2 (10 * Second)
       [(0, Print success Stdout ("Starting RDS monitoring..." ^^ nl));
        (0, Print info Stdout ("Instance: db-1" ^^ nl));
        (0, Print info Stdout ("Endpoint: x" ^^ nl));
        (0, CallLoadDefaultConfig);
        (5 * Second, TickerRecv (5 * Second));
        (5 * Second, CallDescribe "db-1");
        (5 * Second,
         Print failure Stdout ("Error checking RDS: no DB instance found" ^^ nl));
        (10 * Second, TickerRecv (5 * Second));
        (10 * Second, CallDescribe "db-1");
        (10 * Second, Stamp (10 * Second) " ");
        (10 * Second, Print success Stdout "available   ");
        (10 * Second, Print info Stdout (" AZ: us-east-1a" ^^ nl))]%Z) /\
  (forall fuel r st',
     monitorDatabase scenarioD fuel (Some config1) st0 <> (Ret r, st')).
Proof.
  split.
  - vm_compute. reflexivity.
  - intros fuel r st'. apply monitorDatabase_runs_on. reflexivity.
Qed.

(** C1, amended.  In the recovery loop of failover mode an answer with no
    instance, after any number [k] of pending answers, ends the loop on
    that turn and [monitorFailoverStatus] returns the error
    ["no DB instance found"].  In monitor mode such an answer is reported
    as one error line and the loop goes on with its next turn. *)
Theorem C1_not_found (env : Env) (c : SimulationConfig) (id : string)
    (k n : nat) (st : state) :
  ((forall j, j < k ->
      pending (describeDBInstances env (calls st + j) id) = true) ->
   describeDBInstances env (calls st + k) id = inl [] ->
   exists st',
     monitorFailoverStatus env (k + S n) id st =
       (Ret (Some "no DB instance found"), st') /\
     calls st' = calls st + S k) /\
  (describeDBInstances env (calls st) (DBIdentifier c) = inl [] ->
   rangeTicker (S n) (5 * Second) (monitorBody env (Some c)) st =
     rangeTicker n (5 * Second) (monitorBody env (Some c))
       (mkState (S (calls st)) (clock st + 5 * Second)
          (trace st ++
           [(clock st + 5 * Second, TickerRecv (5 * Second));
            (clock st + 5 * Second, CallDescribe (DBIdentifier c));
            (clock st + 5 * Second,
             Print failure Stdout
               ("Error checking RDS: " ^^ "no DB instance found" ^^ nl))]%Z))).
Proof.
  split.
  - intros P E.
    destruct (monitorFailoverStatus_ends env id k n st P)
      as (st1 & R & C1 & _).
    rewrite <- C1 in E. eexists. split.
    + rewrite R. unfold bind at 1.
      rewrite (failoverBody_not_found env id st1 E). reflexivity.
    + cbn [calls]. lia.
  - intros E. rewrite rangeTicker_step. unfold bind at 1.
    rewrite monitorBody_not_found by exact E.
    norm_trace. reflexivity.
Qed.

(** ** Failure of the forced reboot *)

(** C3.  When the forced reboot is refused with error [e], [triggerFailover]
    returns at once the error ["failed to trigger failover: " ++ e]: the
    recovery loop is not entered and no describe call is made. *)
Theorem C3_reboot_error_aborts (env : Env) (fuel : nat) (c : SimulationConfig)
    (e : string) (st : state) :
  loadDefaultConfig env = None ->
  rebootDBInstance env (DBIdentifier c) true = Some e ->
  let st' :=
    mkState (calls st) (clock st)
      (trace st ++
       [(clock st, Print warning Stdout ("Initiating failover simulation..." ^^ nl));
        (clock st, Print info Stdout ("Target instance: " ^^ DBIdentifier c ^^ nl));
        (clock st, CallLoadDefaultConfig);
        (clock st, CallReboot (DBIdentifier c) true)]) in
  triggerFailover env fuel (Some c) st =
    (Ret (Some ("failed to trigger failover: " ^^ e)), st') /\
  describeTimes (trace st') = describeTimes (trace st).
Proof.
  intros H R st'. split.
  - unfold triggerFailover, callLoadDefaultConfig, callReboot.
    unfold field, deref, Println, Printf, emit, bind, ret. cbn [calls clock trace].
    rewrite H, R. subst st'. norm_trace. reflexivity.
  - subst st'. cbn [trace]. unfold describeTimes.
    rewrite timesOf_app, !timesOf_cons, timesOf_nil. simpl.
    apply app_nil_r.
Qed.

(** ** Recovery *)

(** C4.  In failover mode, once the forced reboot is accepted, if the
    answers to the first [k] describe calls are Transitional or Unknown and
    the answer to the next one is Healthy, then [triggerFailover] makes
    exactly [k + 1] describe calls, ten seconds apart, the first one at
    once, prints ["Failover completed successfully"] last and returns no
    error. *)
Theorem C4_recovery_after_n_polls (env : Env) (fuel : nat) (c : SimulationConfig)
    (k : nat) (st : state) :
  loadDefaultConfig env = None ->
  rebootDBInstance env (DBIdentifier c) true = None ->
  (forall j, j < k ->
     pending (describeDBInstances env (calls st + j) (DBIdentifier c)) = true) ->
  healthy (describeDBInstances env (calls st + k) (DBIdentifier c)) = true ->
  k < fuel ->
  exists st',
    triggerFailover env fuel (Some c) st = (Ret None, st') /\
    calls st' = calls st + S k /\
    describeTimes (trace st') =
      describeTimes (trace st) ++ everyFrom (clock st) (10 * Second) (S k) /\
    last (trace st') (0%Z, Sleep 0) =
      (clock st', Print success Stdout ("Failover completed successfully" ^^ nl)).
Proof.
  intros H R P Hk F.
  rewrite (triggerFailover_enters env fuel c st H R).
  replace fuel with (k + S (fuel - S k)) by lia.
  match goal with
  | |- context [monitorFailoverStatus _ _ _ ?s] =>
      destruct (monitorFailoverStatus_ends env (DBIdentifier c) k (fuel - S k) s)
        as (st1 & E & C1 & K1 & D1 & _)
  end.
  { exact P. }
  cbn [calls clock trace] in C1, K1, D1.
  apply healthy_inv in Hk. destruct Hk as (az & others & A).
  rewrite <- C1 in A.
  eexists. split; [ | split; [ | split]].
  - rewrite E. unfold bind at 1.
    rewrite (failoverBody_available env _ st1 az others A). reflexivity.
  - cbn [calls]. lia.
  - cbn [trace]. unfold describeTimes in *.
    rewrite timesOf_app, D1, !timesOf_app, !timesOf_cons, !timesOf_nil.
    simpl isDescribe. cbn iota. rewrite everyFrom_snoc, K1.
    rewrite !app_nil_r, <- !app_assoc. reflexivity.
  - cbn [trace clock].
    match goal with
    | |- last (?t ++ [?a; ?b; ?c0; ?d]) _ = _ =>
        change (t ++ [a; b; c0; d]) with (t ++ [a; b; c0] ++ [d]);
        rewrite (app_assoc t [a; b; c0] [d])
    end.
    apply last_last.
Qed.

(** ** Transport errors *)

(** C5, as stated, fails for the recovery loop.  In scenario T the first
    describe call fails with a transport error: with a budget of five
    turns, and in fact with any budget, [monitorFailoverStatus] returns the
    error after that single call, without printing an error line and
    without a second poll. *)
Lemma C5_recovery_loop_stops_on_transport_error :
  monitorFailoverStatus scenarioT 5 "db-1" st0 =
    (Ret (Some "error describing DB instance: timeout"),
     mkState 1 0
       [(0%Z, Print header Stdout ("Monitoring failover status..." ^^ nl));
        (0%Z, CallDescribe "db-1")]) /\
  (forall n st',
     monitorFailoverStatus scenarioT (S n) "db-1" st0 <> (OutOfFuel, st')).
Proof.
  split.
  - vm_compute. reflexivity.
  - intros n st'. rewrite monitorFailoverStatus_enters. cbn [forever].
    unfold bind at 1.
    rewrite (failoverBody_error scenarioT "db-1" _ "timeout") by reflexivity.
    discriminate.
Qed.

(** C5, amended.  In the monitor loop a transport error of the describe
    call is reported as one error line and the loop goes on with its next
    turn.  In the recovery loop of failover mode a transport error [e],
    after any number [k] of pending answers, ends the loop on that turn:
    [monitorFailoverStatus] returns
    ["error describing DB instance: " ++ e]. *)
Theorem C5_transport_error (env : Env) (c : SimulationConfig) (id : string)
    (e : string) (k n : nat) (st : state) :
  (describeDBInstances env (calls st) (DBIdentifier c) = inr e ->
   rangeTicker (S n) (5 * Second) (monitorBody env (Some c)) st =
     rangeTicker n (5 * Second) (monitorBody env (Some c))
       (mkState (S (calls st)) (clock st + 5 * Second)
          (trace st ++
           [(clock st + 5 * Second, TickerRecv (5 * Second));
            (clock st + 5 * Second, CallDescribe (DBIdentifier c));
            (clock st + 5 * Second,
             Print failure Stdout ("Error checking RDS: " ^^ e ^^ nl))]%Z))) /\
  ((forall j, j < k ->
      pending (describeDBInstances env (calls st + j) id) = true) ->
   describeDBInstances env (calls st + k) id = inr e ->
   exists st',
     monitorFailoverStatus env (k + S n) id st =
       (Ret (Some ("error describing DB instance: " ^^ e)), st') /\
     calls st' = calls st + S k).
Proof.
  split.
  - intros E. rewrite rangeTicker_step. unfold bind at 1.
    rewrite (monitorBody_error env c _ e) by exact E.
    norm_trace. reflexivity.
  - intros P E.
    destruct (monitorFailoverStatus_ends env id k n st P)
      as (st1 & R & C1 & _).
    rewrite <- C1 in E. eexists. split.
    + rewrite R. unfold bind at 1.
      rewrite (failoverBody_error env id st1 e E). reflexivity.
    + cbn [calls]. lia.
Qed.

(** ** Cadence *)

(** C6, as stated, fails for the recovery loop.  In scenario B
    (rebooting, rebooting, available) the three describe calls of
    [monitorFailoverStatus] are made at instants 0, 10 and 20 seconds
    after the loop is entered: the first one without any wait, so it is not
    the case that every query comes a full interval after the start. *)
Lemma C6_recovery_loop_polls_before_waiting :
  describeTimes (trace (snd (monitorFailoverStatus scenarioB 5 "db-1" st0))) =
    [0; 10 * Second; 20 * Second]%Z /\
  ~ Forall (fun t => clock st0 + 10 * Second <= t)%Z
      (describeTimes (trace (snd (monitorFailoverStatus scenarioB 5 "db-1" st0)))).
Proof.
  assert (E : describeTimes
                (trace (snd (monitorFailoverStatus scenarioB 5 "db-1" st0))) =
              [0; 10 * Second; 20 * Second]%Z) by (vm_compute; reflexivity).
  split; [exact E | ].
  rewrite E. intros F. inversion F as [| x l H0 _]. subst.
  vm_compute in H0. apply H0. reflexivity.
Qed.

(** C6, amended.  A turn of the monitor loop first waits for the tick, five
    seconds after the previous one, and then queries: over [n] turns with
    well-formed answers the describe calls, and the reports, are made at
    the instants [t + 5s, t + 10s, ...] counted from the start [t] of the
    ticker.  A turn of the recovery loop queries first and sleeps ten
    seconds afterwards, when the status is not available: over [k] pending
    answers the describe calls, and the reports, are made at the instants
    [t, t + 10s, ...], the first one without any wait. *)
Theorem C6_cadence (env : Env) (c : SimulationConfig) (id : string)
    (n k : nat) (st : state) :
  ((forall j, j < n ->
      wellFormed (describeDBInstances env (calls st + j) (DBIdentifier c)) = true) ->
   exists st',
     rangeTicker n (5 * Second) (monitorBody env (Some c)) st = (OutOfFuel, st') /\
     clock st' = (clock st + 5 * Second * Z.of_nat n)%Z /\
     describeTimes (trace st') =
       describeTimes (trace st) ++
       everyFrom (clock st + 5 * Second) (5 * Second) n /\
     reportTimes (trace st') =
       reportTimes (trace st) ++
       everyFrom (clock st + 5 * Second) (5 * Second) n) /\
  ((forall j, j < k ->
      pending (describeDBInstances env (calls st + j) id) = true) ->
   exists st1,
     forever (k + n) (failoverBody env id) st =
       forever n (failoverBody env id) st1 /\
     clock st1 = (clock st + 10 * Second * Z.of_nat k)%Z /\
     describeTimes (trace st1) =
       describeTimes (trace st) ++ everyFrom (clock st) (10 * Second) k /\
     reportTimes (trace st1) =
       reportTimes (trace st) ++ everyFrom (clock st) (10 * Second) k).
Proof.
  split.
  - intros W.
    destruct (monitor_loop_runs env c (5 * Second) n st W)
      as (st' & R & _ & K & D & P).
    exists st'. auto.
  - intros P.
    destruct (forever_pending env id k n st P) as (st1 & R & _ & K & D & Q).
    exists st1. auto.
Qed.

(** ** Dispatch *)

(** C7.  When the configuration file cannot be read or cannot be decoded,
    [loadConfig] returns a nil configuration and an error; [main] prints
    ["Error loading configuration: ..."] on standard error and goes on to
    the dispatch: in monitor mode it calls [monitorDatabase], in failover
    mode [triggerFailover], with the nil configuration.  (Either function
    prints its first line and then panics on the nil pointer.) *)
Theorem C7_config_error_not_fatal (env : Env) (fuel : nat) (path : string)
    (st : state) :
  (exists e, readFile env path = inr e) \/
  (exists file e, readFile env path = inl file /\ jsonUnmarshal env file = inr e) ->
  exists msg,
    loadConfig env path = (None, Some msg) /\
    (let st1 :=
       mkState (calls st) (clock st)
         (trace st ++
          [(clock st, Print header Stdout ("RDS Failover Simulation Tool" ^^ nl));
           (clock st, Print info Stdout ("Mode: " ^^ "monitor" ^^ nl));
           (clock st,
            Print failure Stderr ("Error loading configuration: " ^^ msg ^^ nl))]) in
     main env fuel (Some path) (Some "monitor") st =
       (err <- monitorDatabase env fuel None ;;
        match err with
        | Some e => Fprintf failure Stderr ("Error: " ^^ e ^^ nl)
        | None => ret tt
        end) st1 /\
     main env fuel (Some path) (Some "monitor") st =
       (Panic,
        mkState (calls st) (clock st)
          (trace st1 ++
           [(clock st, Print success Stdout ("Starting RDS monitoring..." ^^ nl))]))) /\
    (let st1 :=
       mkState (calls st) (clock st)
         (trace st ++
          [(clock st, Print header Stdout ("RDS Failover Simulation Tool" ^^ nl));
           (clock st, Print info Stdout ("Mode: " ^^ "failover" ^^ nl));
           (clock st,
            Print failure Stderr ("Error loading configuration: " ^^ msg ^^ nl))]) in
     main env fuel (Some path) (Some "failover") st =
       (err <- triggerFailover env fuel None ;;
        match err with
        | Some e => Fprintf failure Stderr ("Error: " ^^ e ^^ nl)
        | None => ret tt
        end) st1 /\
     main env fuel (Some path) (Some "failover") st =
       (Panic,
        mkState (calls st) (clock st)
          (trace st1 ++
           [(clock st,
             Print warning Stdout ("Initiating failover simulation..." ^^ nl))]))).
Proof.
  intros F.
  assert (L : exists msg, loadConfig env path = (None, Some msg)).
  { unfold loadConfig. destruct F as [(e & E) | (file & e & E & J)].
    - rewrite E. eauto.
    - rewrite E, J. eauto. }
  destruct L as (msg & L). exists msg. split; [exact L | ].
  unfold main. rewrite L.
  unfold monitorDatabase, triggerFailover.
  unfold field, deref, Println, Printf, Fprintf, emit, panic, bind, ret.
  cbn [calls clock trace String.eqb Ascii.eqb Bool.eqb].
  norm_trace. repeat split; reflexivity.
Qed.

(** C8.  For a mode other than ["monitor"] and ["failover"], [main] prints
    ["Invalid mode specified"] on standard error and returns: its whole
    output is the banner, the mode line, that message and, when the
    configuration could not be loaded, the two lines about that error;
    neither [monitorDatabase] nor [triggerFailover] runs, and no call to
    the control plane is made. *)
Theorem C8_invalid_mode (env : Env) (fuel : nat) (configFlag : option string)
    (mode : string) (st : state) :
  mode <> "monitor" ->
  mode <> "failover" ->
  let configFile := match configFlag with Some f => f | None => "config.json" end in
  let loadError := snd (loadConfig env configFile) in
  main env fuel configFlag (Some mode) st =
    (Ret tt,
     mkState (calls st) (clock st)
       (trace st ++
        [(clock st, Print header Stdout ("RDS Failover Simulation Tool" ^^ nl));
         (clock st, Print info Stdout ("Mode: " ^^ mode ^^ nl))] ++
        match loadError with
        | Some e =>
            [(clock st,
              Print failure Stderr ("Error loading configuration: " ^^ e ^^ nl))]
        | None => []
        end ++
        [(clock st, Print failure Stderr "Invalid mode specified")] ++
        match loadError with
        | Some e => [(clock st, Print failure Stderr ("Error: " ^^ e ^^ nl))]
        | None => []
        end)).
Proof.
  intros M F configFile loadError.
  apply String.eqb_neq in M, F.
  unfold main. fold configFile. subst loadError.
  destruct (loadConfig env configFile) as [sc [e |]];
    rewrite M, F; cbn [snd];
    unfold Println, Printf, Fprintf, emit, bind, ret;
    norm_trace; reflexivity.
Qed.

(** ** The status query *)

(** C9.  When the describe call answers a non-empty list whose first
    instance has status [status] and zone [az], [getRDSStatus] returns
    [(status, az, nil)] whatever the other instances are; in general its
    outcome on a non-empty list is the one on the list reduced to its
    first instance.  When the call fails with [e] it returns ["", "", e],
    when the list is empty ["", "", "no DB instance found"]; and whenever
    it returns an error the two strings are empty. *)
Theorem C9_getRDSStatus (env : Env) (id : string) (st : state) :
  let st' :=
    mkState (S (calls st)) (clock st) (trace st ++ [(clock st, CallDescribe id)]) in
  (forall status az others,
     describeDBInstances env (calls st) id =
       inl (mkDBInstance (Some status) (Some az) :: others) ->
     getRDSStatus env id st = (Ret (status, az, None), st')) /\
  (forall env' first others,
     describeDBInstances env (calls st) id = inl (first :: others) ->
     describeDBInstances env' (calls st) id = inl [first] ->
     getRDSStatus env id st = getRDSStatus env' id st) /\
  (forall e,
     describeDBInstances env (calls st) id = inr e ->
     getRDSStatus env id st = (Ret ("", "", Some e), st')) /\
  (describeDBInstances env (calls st) id = inl [] ->
   getRDSStatus env id st = (Ret ("", "", Some "no DB instance found"), st')) /\
  (forall status az e st2,
     getRDSStatus env id st = (Ret (status, az, Some e), st2) ->
     status = "" /\ az = "" /\
     (describeDBInstances env (calls st) id = inr e \/
      describeDBInstances env (calls st) id = inl [])).
Proof.
  intros st'. subst st'.
  unfold getRDSStatus, callDescribe, deref, bind, ret, panic.
  split; [ | split; [ | split; [ | split]]].
  - intros status az others E. rewrite E. reflexivity.
  - intros env' first others E E'. rewrite E, E'. reflexivity.
  - intros e E. rewrite E. reflexivity.
  - intros E. rewrite E. reflexivity.
  - intros status az e st2 H.
    destruct (describeDBInstances env (calls st) id)
      as [[| [[s |] [z |]] others] | e']; simpl in H; try discriminate H.
    + injection H as <- <- <- _. auto.
    + injection H as <- <- <- _. auto.
Qed.

(** ** Monitor mode never returns *)

(** C10.  Whatever the answers of the control plane and for every number
    of turns, the monitor loop is not left normally, so [monitorDatabase]
    never returns nil: the statement after the loop is not reached.  When
    moreover the answers are successes with a status and a zone, transport
    errors or empty lists, in any order, [monitorDatabase] is still in its
    loop after any number [fuel] of turns, having made [fuel] describe
    calls, and it returns nothing at all. *)
Theorem C10_monitor_never_returns (env : Env) (fuel : nat)
    (c : SimulationConfig) (st : state) :
  (forall sc d st', rangeTicker fuel d (monitorBody env sc) st <> (Ret tt, st')) /\
  (forall sc st', monitorDatabase env fuel sc st <> (Ret None, st')) /\
  (loadDefaultConfig env = None ->
   (forall n, wellFormed (describeDBInstances env n (DBIdentifier c)) = true) ->
   (forall r st', monitorDatabase env fuel (Some c) st <> (Ret r, st')) /\
   exists st',
     monitorDatabase env fuel (Some c) st = (OutOfFuel, st') /\
     calls st' = calls st + fuel /\
     clock st' = (clock st + 5 * Second * Z.of_nat fuel)%Z).
Proof.
  split; [ | split].
  - intros sc d st'. apply monitor_loop_never_exits.
  - intros sc st'. apply monitorDatabase_never_nil.
  - intros H W. split.
    + intros r st'. apply monitorDatabase_runs_on. exact H.
    + rewrite (monitorDatabase_enters env fuel c st H).
      match goal with
      | |- context [bind _ _ ?s] =>
          destruct (monitor_loop_runs env c (5 * Second) fuel s)
            as (st' & R & C1 & K1 & _)
      end.
      { intros j _. apply W. }
      exists st'. unfold bind at 1. rewrite R.
      cbn [calls clock] in C1, K1. auto.
Qed.

(** ** The theorems at work on the scenarios *)

(** The recovery loop in a scenario that loses the instance on the second
    poll, and the monitor loop in scenario D. *)
Lemma C1_not_found_witness :
  (exists st',
     monitorFailoverStatus scenarioLost 5 "db-1" st0 =
       (Ret (Some "no DB instance found"), st') /\
     calls st' = 2) /\
  rangeTicker 3 (5 * Second) (monitorBody scenarioD (Some config1)) st0 =
    rangeTicker 2 (5 * Second) (monitorBody scenarioD (Some config1))
      (mkState 1 (5 * Second)
         [(5 * Second, TickerRecv (5 * Second));
          (5 * Second, CallDescribe "db-1");
          (5 * Second,
           Print failure Stdout ("Error checking RDS: no DB instance found" ^^ nl))]%Z).
Proof.
  split.
  - apply (proj1 (C1_not_found scenarioLost config1 "db-1" 1 3 st0)).
    + intros j Hj. destruct j as [| j]; [reflexivity | lia].
    + reflexivity.
  - apply (proj2 (C1_not_found scenarioD config1 "db-1" 0 2 st0)). reflexivity.
Defined.

(** Scenario C. *)
Lemma C3_reboot_error_aborts_witness :
  triggerFailover scenarioC 5 (Some config1) st0 =
    (Ret (Some "failed to trigger failover: access denied"),
     mkState 0 0
       [(0%Z, Print warning Stdout ("Initiating failover simulation..." ^^ nl));
        (0%Z, Print info Stdout ("Target instance: db-1" ^^ nl));
        (0%Z, CallLoadDefaultConfig);
        (0%Z, CallReboot "db-1" true)]) /\
  describeTimes
    [(0%Z, Print warning Stdout ("Initiating failover simulation..." ^^ nl));
     (0%Z, Print info Stdout ("Target instance: db-1" ^^ nl));
     (0%Z, CallLoadDefaultConfig);
     (0%Z, CallReboot "db-1" true)] = [].
Proof.
  apply (C3_reboot_error_aborts scenarioC 5 config1 "access denied" st0);
    reflexivity.
Defined.

(** Scenario B: two pending answers, then available. *)
Lemma C4_recovery_after_n_polls_witness :
  exists st',
    triggerFailover scenarioB 5 (Some config1) st0 = (Ret None, st') /\
    calls st' = 3 /\
    describeTimes (trace st') = [0; 10 * Second; 20 * Second]%Z /\
    last (trace st') (0%Z, Sleep 0) =
      (clock st', Print success Stdout ("Failover completed successfully" ^^ nl)).
Proof.
  apply (C4_recovery_after_n_polls scenarioB 5 config1 2 st0).
  - reflexivity.
  - reflexivity.
  - intros j Hj. destruct j as [| [| j]]; [reflexivity | reflexivity | lia].
  - reflexivity.
  - lia.
Defined.

(** The monitor loop in scenario T, and the recovery loop in a scenario
    whose second poll fails. *)
Lemma C5_transport_error_witness :
  rangeTicker 3 (5 * Second) (monitorBody scenarioT (Some config1)) st0 =
    rangeTicker 2 (5 * Second) (monitorBody scenarioT (Some config1))
      (mkState 1 (5 * Second)
         [(5 * Second, TickerRecv (5 * Second));
          (5 * Second, CallDescribe "db-1");
          (5 * Second,
           Print failure Stdout ("Error checking RDS: timeout" ^^ nl))]%Z) /\
  (exists st',
     monitorFailoverStatus scenarioFlaky 5 "db-1" st0 =
       (Ret (Some "error describing DB instance: timeout"), st') /\
     calls st' = 2).
Proof.
  split.
  - apply (proj1 (C5_transport_error scenarioT config1 "db-1" "timeout" 0 2 st0)).
    reflexivity.
  - apply (proj2 (C5_transport_error scenarioFlaky config1 "db-1" "timeout" 1 3 st0)).
    + intros j Hj. destruct j as [| j]; [reflexivity | lia].
    + reflexivity.
Defined.

(** Three turns of the monitor loop in scenario D, and the two pending
    polls of scenario B. *)
Lemma C6_cadence_witness :
  (exists st',
     rangeTicker 3 (5 * Second) (monitorBody scenarioD (Some config1)) st0 =
       (OutOfFuel, st') /\
     clock st' = (15 * Second)%Z /\
     describeTimes (trace st') = [5 * Second; 10 * Second; 15 * Second]%Z /\
     reportTimes (trace st') = [5 * Second; 10 * Second; 15 * Second]%Z) /\
  (exists st1,
     forever 5 (failoverBody scenarioB "db-1") st0 =
       forever 3 (failoverBody scenarioB "db-1") st1 /\
     clock st1 = (20 * Second)%Z /\
     describeTimes (trace st1) = [0; 10 * Second]%Z /\
     reportTimes (trace st1) = [0; 10 * Second]%Z).
Proof.
  split.
  - apply (proj1 (C6_cadence scenarioD config1 "db-1" 3 0 st0)).
    intros j Hj. destruct j as [| [| [| j]]]; reflexivity.
  - apply (proj2 (C6_cadence scenarioB config1 "db-1" 3 2 st0)).
    intros j Hj. destruct j as [| [| j]]; [reflexivity | reflexivity | lia].
Defined.

(** The configuration file is missing. *)
Lemma C7_config_error_not_fatal_witness :
  exists msg,
    loadConfig scenarioNoFile "config.json" = (None, Some msg) /\
    (main scenarioNoFile 5 (Some "config.json") (Some "monitor") st0 =
       (err <- monitorDatabase scenarioNoFile 5 None ;;
        match err with
        | Some e => Fprintf failure Stderr ("Error: " ^^ e ^^ nl)
        | None => ret tt
        end)
         (mkState 0 0
            [(0%Z, Print header Stdout ("RDS Failover Simulation Tool" ^^ nl));
             (0%Z, Print info Stdout ("Mode: monitor" ^^ nl));
             (0%Z,
              Print failure Stderr ("Error loading configuration: " ^^ msg ^^ nl))]) /\
     main scenarioNoFile 5 (Some "config.json") (Some "monitor") st0 =
       (Panic,
        mkState 0 0
          [(0%Z, Print header Stdout ("RDS Failover Simulation Tool" ^^ nl));
           (0%Z, Print info Stdout ("Mode: monitor" ^^ nl));
           (0%Z,
            Print failure Stderr ("Error loading configuration: " ^^ msg ^^ nl));
           (0%Z, Print success Stdout ("Starting RDS monitoring..." ^^ nl))])) /\
    (main scenarioNoFile 5 (Some "config.json") (Some "failover") st0 =
       (err <- triggerFailover scenarioNoFile 5 None ;;
        match err with
        | Some e => Fprintf failure Stderr ("Error: " ^^ e ^^ nl)
        | None => ret tt
        end)
         (mkState 0 0
            [(0%Z, Print header Stdout ("RDS Failover Simulation Tool" ^^ nl));
             (0%Z, Print info Stdout ("Mode: failover" ^^ nl));
             (0%Z,
              Print failure Stderr ("Error loading configuration: " ^^ msg ^^ nl))]) /\
     main scenarioNoFile 5 (Some "config.json") (Some "failover") st0 =
       (Panic,
        mkState 0 0
          [(0%Z, Print header Stdout ("RDS Failover Simulation Tool" ^^ nl));
           (0%Z, Print info Stdout ("Mode: failover" ^^ nl));
           (0%Z,
            Print failure Stderr ("Error loading configuration: " ^^ msg ^^ nl));
           (0%Z, Print warning Stdout ("Initiating failover simulation..." ^^ nl))])).
Proof.
  apply (C7_config_error_not_fatal scenarioNoFile 5 "config.json" st0).
  left. exists "open config.json: no such file or directory". reflexivity.
Defined.

(** An unknown mode, with and without a configuration error; the mode is
    compared exactly, so ["Monitor"] is unknown too. *)
Lemma C8_invalid_mode_witness :
  main scenarioNoFile 5 None (Some "status") st0 =
    (Ret tt,
     mkState 0 0
       [(0%Z, Print header Stdout ("RDS Failover Simulation Tool" ^^ nl));
        (0%Z, Print info Stdout ("Mode: status" ^^ nl));
        (0%Z,
         Print failure Stderr
           ("Error loading configuration: error reading config file: "
            ^^ "open config.json: no such file or directory" ^^ nl));
        (0%Z, Print failure Stderr "Invalid mode specified");
        (0%Z,
         Print failure Stderr
           ("Error: error reading config file: "
            ^^ "open config.json: no such file or directory" ^^ nl))]) /\
  main scenarioA 5 (Some "prod.json") (Some "Monitor") st0 =
    (Ret tt,
     mkState 0 0
       [(0%Z, Print header Stdout ("RDS Failover Simulation Tool" ^^ nl));
        (0%Z, Print info Stdout ("Mode: Monitor" ^^ nl));
        (0%Z, Print failure Stderr "Invalid mode specified")]).
Proof.
  split.
  - apply (C8_invalid_mode scenarioNoFile 5 None "status" st0); discriminate.
  - apply (C8_invalid_mode scenarioA 5 (Some "prod.json") "Monitor" st0); discriminate.
Defined.

(** An answer with two instances, a transport error and an empty answer. *)
Lemma C9_getRDSStatus_witness :
  getRDSStatus scenarioTwo "db-1" st0 =
    (Ret ("available", "us-east-1a", None), mkState 1 0 [(0%Z, CallDescribe "db-1")]) /\
  getRDSStatus scenarioTwo "db-1" st0 = getRDSStatus scenarioA "db-1" st0 /\
  getRDSStatus scenarioT "db-1" st0 =
    (Ret ("", "", Some "timeout"), mkState 1 0 [(0%Z, CallDescribe "db-1")]) /\
  getRDSStatus scenarioD "db-1" st0 =
    (Ret ("", "", Some "no DB instance found"),
     mkState 1 0 [(0%Z, CallDescribe "db-1")]).
Proof.
  split; [ | split; [ | split]].
  - apply (proj1 (C9_getRDSStatus scenarioTwo "db-1" st0)
             "available" "us-east-1a" [instance "rebooting" "us-east-1b"]).
    reflexivity.
  - apply (proj1 (proj2 (C9_getRDSStatus scenarioTwo "db-1" st0))
             scenarioA (instance "available" "us-east-1a")
             [instance "rebooting" "us-east-1b"]); reflexivity.
  - apply (proj1 (proj2 (proj2 (C9_getRDSStatus scenarioT "db-1" st0))) "timeout").
    reflexivity.
  - apply (proj1 (proj2 (proj2 (proj2 (C9_getRDSStatus scenarioD "db-1" st0))))).
    reflexivity.
Defined.

(** Scenario D: an empty answer, then available for ever. *)
Lemma C10_monitor_never_returns_witness :
  (forall r st', monitorDatabase scenarioD 3 (Some config1) st0 <> (Ret r, st')) /\
  exists st',
    monitorDatabase scenarioD 3 (Some config1) st0 = (OutOfFuel, st') /\
    calls st' = 3 /\
    clock st' = (15 * Second)%Z.
Proof.
  apply (proj2 (proj2 (C10_monitor_never_returns scenarioD 3 config1 st0))).
  - reflexivity.
  - intros n. destruct n as [| [| n]]; reflexivity.
Defined.

(** ** The scenarios of the specification, run through [main] *)

(** Scenario B: three polls, ten seconds apart, then success. *)
Example scenarioB_main :
  main scenarioB 5 None (Some "failover") st0 =
    (Ret tt,
     mkState 3 (20 * Second)
       [(0, Print header Stdout ("RDS Failover Simulation Tool" ^^ nl));
        (0, Print info Stdout ("Mode: failover" ^^ nl));
        (0, Print warning Stdout ("Initiating failover simulation..." ^^ nl));
        (0, Print info Stdout ("Target instance: db-1" ^^ nl));
        (0, CallLoadDefaultConfig);
        (0, CallReboot "db-1" true);
        (0, Print success Stdout ("Failover initiated successfully" ^^ nl));
        (0, Print header Stdout ("Monitoring failover status..." ^^ nl));
        (0, CallDescribe "db-1");
        (0, Stamp 0 " Status: ");
        (0, Print warning Stdout ("rebooting" ^^ nl));
        (0, Sleep (10 * Second));
        (10 * Second, CallDescribe "db-1");
        (10 * Second, Stamp (10 * Second) " Status: ");
        (10 * Second, Print warning Stdout ("rebooting" ^^ nl));
        (10 * Second, Sleep (10 * Second));
        (20 * Second, CallDescribe "db-1");
        (20 * Second, Stamp (20 * Second) " Status: ");
        (20 * Second, Print success Stdout ("available" ^^ nl));
        (20 * Second,
         Print success Stdout ("Failover completed successfully" ^^ nl))]%Z).
Proof. vm_compute. reflexivity. Qed.

(** Scenario C: the refusal is reported at once, with no describe call. *)
Example scenarioC_main :
  main scenarioC 5 None (Some "failover") st0 =
    (Ret tt,
     mkState 0 0
       [(0%Z, Print header Stdout ("RDS Failover Simulation Tool" ^^ nl));
        (0%Z, Print info Stdout ("Mode: failover" ^^ nl));
        (0%Z, Print warning Stdout ("Initiating failover simulation..." ^^ nl));
        (0%Z, Print info Stdout ("Target instance: db-1" ^^ nl));
        (0%Z, CallLoadDefaultConfig);
        (0%Z, CallReboot "db-1" true);
        (0%Z,
         Print failure Stderr
           ("Error: failed to trigger failover: access denied" ^^ nl))]).
Proof. vm_compute. reflexivity. Qed.

(** * Further properties of the monitoring tool *)

(** ** What a run adds to the trace *)

Lemma emitsOnly_same {A} (P : event -> Prop) (m : M A) :
  (forall st, trace (snd (m st)) = trace st) -> emitsOnly P m.
Proof.
  intros H st. exists []. rewrite H, app_nil_r. split; [reflexivity | constructor].
Qed.

Lemma emitsOnly_emit (P : event -> Prop) (e : event) :
  P e -> emitsOnly P (emit e).
Proof.
  intros H st. exists [(clock st, e)]. split; [reflexivity | ].
  constructor; [exact H | constructor].
Qed.

Lemma emitsOnly_bind {A B} (P : event -> Prop) (m : M A) (k : A -> M B) :
  emitsOnly P m -> (forall a, emitsOnly P (k a)) -> emitsOnly P (bind m k).
Proof.
  intros Hm Hk st. unfold bind.
  destruct (Hm st) as (d1 & E1 & F1).
  destruct (m st) as [[a | |] st1]; cbn [snd] in *.
  - destruct (Hk a st1) as (d2 & E2 & F2).
    exists (d1 ++ d2). rewrite E2, E1, app_assoc. split; [reflexivity | ].
    apply Forall_app. split; assumption.
  - exists d1. split; assumption.
  - exists d1. split; assumption.
Qed.

Lemma emitsOnly_ext {A} (P : event -> Prop) (m' m : M A) :
  (forall st, m st = m' st) -> emitsOnly P m' -> emitsOnly P m.
Proof. intros E H st. rewrite E. apply H. Qed.

Lemma emitsOnly_deref {A} (P : event -> Prop) (p : option A) :
  emitsOnly P (deref p).
Proof. apply emitsOnly_same. intros st. destruct p; reflexivity. Qed.

Lemma emitsOnly_field {A B} (P : event -> Prop) (p : option A) (f : A -> B) :
  emitsOnly P (field p f).
Proof. apply emitsOnly_same. intros st. destruct p; reflexivity. Qed.

Lemma emitsOnly_ret {A} (P : event -> Prop) (a : A) : emitsOnly P (ret a).
Proof. apply emitsOnly_same. reflexivity. Qed.

Lemma emitsOnly_callDescribe (P : event -> Prop) (env : Env) (id : string) :
  P (CallDescribe id) -> emitsOnly P (callDescribe env id).
Proof.
  intros H st. exists [(clock st, CallDescribe id)]. split; [reflexivity | ].
  constructor; [exact H | constructor].
Qed.

Lemma emitsOnly_forever {A} (P : event -> Prop) (body : M (ctl A)) (fuel : nat) :
  emitsOnly P body -> emitsOnly P (forever fuel body).
Proof.
  intros Hb. induction fuel as [| n IH].
  - apply emitsOnly_same. reflexivity.
  - cbn [forever]. apply emitsOnly_bind; [exact Hb | ].
    intros [| a]; [exact IH | apply emitsOnly_ret].
Qed.

Lemma emitsOnly_rangeTicker (P : event -> Prop) (body : M unit) (d : Z)
    (fuel : nat) :
  P (TickerRecv d) -> emitsOnly P body -> emitsOnly P (rangeTicker fuel d body).
Proof.
  intros Ht Hb. induction fuel as [| n IH].
  - apply emitsOnly_same. reflexivity.
  - cbn [rangeTicker]. apply emitsOnly_bind.
    + unfold tickerRecv. apply emitsOnly_bind.
      * apply emitsOnly_same. reflexivity.
      * intros _. apply emitsOnly_bind; [apply emitsOnly_emit; exact Ht | ].
        intros _. apply emitsOnly_ret.
    + intros [|]; [ | apply emitsOnly_ret].
      apply emitsOnly_bind; [exact Hb | intros _; exact IH].
Qed.

Lemma timesOf_none (p : event -> bool) (delta : list (Z * event)) :
  Forall (fun x => p (snd x) = false) delta -> timesOf p delta = [].
Proof.
  induction 1 as [| [t e] l H _ IH]; [reflexivity | ].
  rewrite timesOf_cons. cbn [snd] in H. rewrite H. exact IH.
Qed.

Section Frame.

Variable P : event -> Prop.
Hypothesis P_print : forall p s, P (Print p Stdout s).
Hypothesis P_stamp : forall t s, P (Stamp t s).
Hypothesis P_tick : forall d, P (TickerRecv d).
Hypothesis P_sleep : forall d, P (Sleep d).
Hypothesis P_load : P CallLoadDefaultConfig.

Variable env : Env.

Ltac leaf :=
  first
    [ apply emitsOnly_ret
    | apply emitsOnly_deref
    | apply emitsOnly_field
    | apply emitsOnly_emit; solve [auto]
    | apply emitsOnly_callDescribe; solve [auto] ].

Ltac step := apply emitsOnly_bind; [solve [leaf] | ].

Lemma emitsOnly_printStatus (status az : string) :
  emitsOnly P (printStatus status az).
Proof.
  unfold printStatus, Printf.
  apply emitsOnly_bind; [apply emitsOnly_same; reflexivity | intros t].
  apply emitsOnly_bind; [apply emitsOnly_emit; auto | intros _].
  apply emitsOnly_bind; [ | intros _; apply emitsOnly_emit; auto].
  destruct (status =? "available");
    [ | destruct ((status =? "rebooting") || (status =? "modifying"))];
    apply emitsOnly_emit; auto.
Qed.

Lemma emitsOnly_printFailoverStatus (status : string) :
  emitsOnly P (printFailoverStatus status).
Proof.
  unfold printFailoverStatus, Println.
  apply emitsOnly_bind; [apply emitsOnly_same; reflexivity | intros t].
  apply emitsOnly_bind; [apply emitsOnly_emit; auto | intros _].
  destruct (status =? "available");
    [ | destruct ((status =? "rebooting") || (status =? "modifying"))];
    apply emitsOnly_emit; auto.
Qed.

Lemma emitsOnly_getRDSStatus (id : string) :
  P (CallDescribe id) -> emitsOnly P (getRDSStatus env id).
Proof.
  intros H. unfold getRDSStatus. step.
  intros [[| first others] | e]; try leaf.
  step. intros status. step. intros az. leaf.
Qed.

Lemma emitsOnly_monitorBody (sc : option SimulationConfig) :
  (forall c, sc = Some c -> P (CallDescribe (DBIdentifier c))) ->
  emitsOnly P (monitorBody env sc).
Proof.
  intros H. destruct sc as [c |].
  - apply (emitsOnly_ext P
             (r <- getRDSStatus env (DBIdentifier c) ;;
              match r with
              | (_, _, Some err) =>
                  Printf failure ("Error checking RDS: " ^^ err ^^ nl)
              | (status, az, None) => printStatus status az
              end)); [reflexivity | ].
    apply emitsOnly_bind; [apply emitsOnly_getRDSStatus; auto | ].
    intros [[status az] [e |]].
    + unfold Printf. apply emitsOnly_emit. auto.
    + apply emitsOnly_printStatus.
  - apply emitsOnly_same. reflexivity.
Qed.

Lemma emitsOnly_monitorDatabase (fuel : nat) (sc : option SimulationConfig) :
  (forall c, sc = Some c -> P (CallDescribe (DBIdentifier c))) ->
  emitsOnly P (monitorDatabase env fuel sc).
Proof.
  intros H. unfold monitorDatabase, Println, Printf, callLoadDefaultConfig.
  step. intros _. step. intros id. step. intros _. step. intros ep.
  step. intros _.
  apply emitsOnly_bind; [step; intros _; leaf | ].
  intros [e |]; [leaf | ].
  apply emitsOnly_bind; [ | intros _; leaf].
  apply emitsOnly_rangeTicker; [auto | ].
  apply emitsOnly_monitorBody. exact H.
Qed.

Lemma emitsOnly_failoverBody (id : string) :
  P (CallDescribe id) -> emitsOnly P (failoverBody env id).
Proof.
  intros H. unfold failoverBody. step.
  intros [[| first others] | e]; try leaf.
  step. intros status.
  apply emitsOnly_bind; [apply emitsOnly_printFailoverStatus | intros _].
  unfold Println, sleep. destruct (status =? "available").
  - step. intros _. leaf.
  - apply emitsOnly_bind; [ | intros _; leaf].
    step. intros _. apply emitsOnly_same. reflexivity.
Qed.

Lemma emitsOnly_monitorFailoverStatus (fuel : nat) (id : string) :
  P (CallDescribe id) -> emitsOnly P (monitorFailoverStatus env fuel id).
Proof.
  intros H. unfold monitorFailoverStatus, Println.
  apply emitsOnly_bind; [apply emitsOnly_emit; auto | intros _].
  apply emitsOnly_forever. apply emitsOnly_failoverBody. exact H.
Qed.

Lemma emitsOnly_triggerFailover (fuel : nat) (sc : option SimulationConfig) :
  (forall c, sc = Some c ->
     P (CallDescribe (DBIdentifier c)) /\ P (CallReboot (DBIdentifier c) true)) ->
  emitsOnly P (triggerFailover env fuel sc).
Proof.
  intros H. destruct sc as [c |].
  - destruct (H c eq_refl) as [Hd Hr].
    apply (emitsOnly_ext P
             (Println warning "Initiating failover simulation..." ;;
              Printf info ("Target instance: " ^^ DBIdentifier c ^^ nl) ;;
              err <- callLoadDefaultConfig env ;;
              match err with
              | Some e => ret (Some ("unable to load AWS config: " ^^ e))
              | None =>
                  err <- callReboot env (DBIdentifier c) true ;;
                  match err with
                  | Some e => ret (Some ("failed to trigger failover: " ^^ e))
                  | None =>
                      Println success "Failover initiated successfully" ;;
                      monitorFailoverStatus env fuel (DBIdentifier c)
                  end
              end)).
    { intros st. reflexivity. }
    unfold Println, Printf, callLoadDefaultConfig, callReboot.
    step. intros _. step. intros _.
    apply emitsOnly_bind; [step; intros _; leaf | ].
    intros [e |]; [leaf | ].
    apply emitsOnly_bind; [step; intros _; leaf | ].
    intros [e |]; [leaf | ].
    step. intros _.
    apply emitsOnly_monitorFailoverStatus. exact Hd.
  - apply (emitsOnly_ext P
             (Println warning "Initiating failover simulation..." ;; panic));
      [reflexivity | ].
    unfold Println. step. intros _. apply emitsOnly_same. reflexivity.
Qed.

Lemma emitsOnly_main (fuel : nat) (configFlag modeFlag : option string) :
  (forall s, P (Print failure Stderr s)) ->
  (forall c,
     fst (loadConfig env
            match configFlag with Some f => f | None => "config.json" end) =
       Some c ->
     P (CallDescribe (DBIdentifier c)) /\ P (CallReboot (DBIdentifier c) true)) ->
  emitsOnly P (main env fuel configFlag modeFlag).
Proof.
  intros He H. unfold main.
  destruct (loadConfig env _) as [sc err]. cbn [fst] in H.
  unfold Println, Printf, Fprintf.
  step. intros _. step. intros _.
  apply emitsOnly_bind; [destruct err; leaf | intros _].
  apply emitsOnly_bind.
  - destruct (_ =? "monitor").
    + apply emitsOnly_monitorDatabase. intros c E. apply (H c E).
    + destruct (_ =? "failover").
      * apply emitsOnly_triggerFailover. exact H.
      * step. intros _. leaf.
  - intros [e |]; leaf.
Qed.

End Frame.

(** ** Loading the configuration *)

(** [loadConfig] returns either a configuration and no error, when the file
    is read and decoded, or no configuration and an error that tells which
    of the two steps failed; never both, never neither. *)
Theorem loadConfig_config_xor_error (env : Env) (path : string) :
  match loadConfig env path with
  | (Some c, None) =>
      exists file, readFile env path = inl file /\ jsonUnmarshal env file = inl c
  | (None, Some msg) =>
      (exists e,
         readFile env path = inr e /\
         msg = "error reading config file: " ^^ e) \/
      (exists file e,
         readFile env path = inl file /\
         jsonUnmarshal env file = inr e /\
         msg = "error parsing config file: " ^^ e)
  | _ => False
  end.
Proof.
  unfold loadConfig.
  destruct (readFile env path) as [file | e] eqn:R.
  - destruct (jsonUnmarshal env file) as [c | e] eqn:J.
    + exists file. auto.
    + right. exists file, e. auto.
  - left. exists e. auto.
Qed.

(** ** Which calls a run makes *)

(** Monitor mode is passive: whatever the control plane answers and however
    long it runs, [monitorDatabase] never asks for a reboot, writes nothing
    on standard error, and describes no other instance than the configured
    one (and none at all without a configuration). *)
Theorem monitorDatabase_is_passive (env : Env) (fuel : nat)
    (sc : option SimulationConfig) (st : state) :
  exists delta,
    trace (snd (monitorDatabase env fuel sc st)) = trace st ++ delta /\
    Forall (fun x =>
              isReboot (snd x) = false /\
              isStderr (snd x) = false /\
              match sc with
              | Some c => targets (DBIdentifier c) (snd x)
              | None => offline (snd x)
              end) delta.
Proof.
  apply (emitsOnly_monitorDatabase
           (fun e =>
              isReboot e = false /\ isStderr e = false /\
              match sc with
              | Some c => targets (DBIdentifier c) e
              | None => offline e
              end)); try solve [intros; destruct sc; cbn; auto].
  intros c E. subst sc. cbn. auto.
Qed.

(** Every call [main] makes to the control plane, in any mode and with any
    flags, names the instance of the loaded configuration, and a reboot
    always forces the failover; without a configuration no call is made. *)
Theorem main_targets_configured_instance (env : Env) (fuel : nat)
    (configFlag modeFlag : option string) (st : state) :
  exists delta,
    trace (snd (main env fuel configFlag modeFlag st)) = trace st ++ delta /\
    Forall (fun x =>
              match
                fst (loadConfig env
                       match configFlag with Some f => f | None => "config.json" end)
              with
              | Some c => targets (DBIdentifier c) (snd x)
              | None => offline (snd x)
              end) delta.
Proof.
  apply (emitsOnly_main
           (fun e =>
              match
                fst (loadConfig env
                       match configFlag with Some f => f | None => "config.json" end)
              with
              | Some c => targets (DBIdentifier c) e
              | None => offline e
              end));
    try solve [intros; destruct (fst (loadConfig env _)); cbn; auto].
  intros c E. rewrite E. cbn. auto.
Qed.

Lemma triggerFailover_no_credentials (env : Env) (fuel : nat)
    (c : SimulationConfig) (e : string) (st : state) :
  loadDefaultConfig env = Some e ->
  triggerFailover env fuel (Some c) st =
    (Ret (Some ("unable to load AWS config: " ^^ e)),
     mkState (calls st) (clock st)
       (trace st ++
        [(clock st, Print warning Stdout ("Initiating failover simulation..." ^^ nl));
         (clock st, Print info Stdout ("Target instance: " ^^ DBIdentifier c ^^ nl));
         (clock st, CallLoadDefaultConfig)])).
Proof.
  intros H. unfold triggerFailover, callLoadDefaultConfig.
  unfold field, deref, Println, Printf, emit, bind, ret. cbn [calls clock trace].
  rewrite H. norm_trace. reflexivity.
Qed.

Lemma triggerFailover_refused (env : Env) (fuel : nat)
    (c : SimulationConfig) (e : string) (st : state) :
  loadDefaultConfig env = None ->
  rebootDBInstance env (DBIdentifier c) true = Some e ->
  triggerFailover env fuel (Some c) st =
    (Ret (Some ("failed to trigger failover: " ^^ e)),
     mkState (calls st) (clock st)
       (trace st ++
        [(clock st, Print warning Stdout ("Initiating failover simulation..." ^^ nl));
         (clock st, Print info Stdout ("Target instance: " ^^ DBIdentifier c ^^ nl));
         (clock st, CallLoadDefaultConfig);
         (clock st, CallReboot (DBIdentifier c) true)])).
Proof.
  intros H R. unfold triggerFailover, callLoadDefaultConfig, callReboot.
  unfold field, deref, Println, Printf, emit, bind, ret. cbn [calls clock trace].
  rewrite H, R. norm_trace. reflexivity.
Qed.

(** In failover mode the reboot is asked for at most once, and before any
    describe call: what [triggerFailover] adds to the trace splits into a
    first part with at most one reboot and no describe call, and a second
    part with no reboot. *)
Theorem triggerFailover_reboots_once_and_first (env : Env) (fuel : nat)
    (sc : option SimulationConfig) (st : state) :
  exists pre rest,
    trace (snd (triggerFailover env fuel sc st)) = trace st ++ pre ++ rest /\
    describeTimes pre = [] /\
    length (timesOf isReboot pre) <= 1 /\
    timesOf isReboot rest = [].
Proof.
  destruct sc as [c |].
  - destruct (loadDefaultConfig env) as [e |] eqn:L.
    + rewrite (triggerFailover_no_credentials env fuel c e st L).
      eexists. exists []. cbn [snd trace]. rewrite app_nil_r.
      split; [reflexivity | ]. cbn. auto.
    + destruct (rebootDBInstance env (DBIdentifier c) true) as [e |] eqn:R.
      * rewrite (triggerFailover_refused env fuel c e st L R).
        eexists. exists []. cbn [snd trace]. rewrite app_nil_r.
        split; [reflexivity | ]. cbn. auto.
      * rewrite (triggerFailover_enters env fuel c st L R).
        match goal with
        | |- context [monitorFailoverStatus _ _ _ ?s] =>
            destruct (emitsOnly_monitorFailoverStatus
                        (fun e => isReboot e = false)
                        (fun _ _ => eq_refl) (fun _ _ => eq_refl)
                        (fun _ => eq_refl) env fuel (DBIdentifier c) eq_refl s)
              as (rest & E & F)
        end.
        eexists. exists rest. rewrite E. cbn [trace].
        rewrite <- app_assoc. split; [reflexivity | ].
        split; [reflexivity | ]. split; [cbn; auto | ].
        apply timesOf_none. exact F.
  - exists [(clock st,
             Print warning Stdout ("Initiating failover simulation..." ^^ nl))], [].
    split; [reflexivity | ]. cbn. auto.
Qed.

(** ** No timeout on the recovery *)

(** The recovery loop has no bound of its own: as long as every answer
    carries a status other than available (an instance stuck in rebooting,
    or failed), [monitorFailoverStatus] keeps polling every ten seconds and
    does not return, whatever the number of turns. *)
Theorem recovery_has_no_timeout (env : Env) (id : string) (fuel : nat)
    (st : state) :
  (forall n, pending (describeDBInstances env n id) = true) ->
  exists st',
    monitorFailoverStatus env fuel id st = (OutOfFuel, st') /\
    calls st' = calls st + fuel /\
    clock st' = (clock st + 10 * Second * Z.of_nat fuel)%Z.
Proof.
  intros P. rewrite monitorFailoverStatus_enters.
  match goal with
  | |- context [forever _ _ ?s] =>
      destruct (forever_pending env id fuel 0 s) as (st1 & R & C1 & K1 & _)
  end.
  { intros j _. apply P. }
  rewrite Nat.add_0_r in R. exists st1. rewrite R.
  cbn [calls clock] in C1, K1. auto.
Qed.

(** ** Missing fields *)

(** The monitor loop dereferences the status and the zone of the first
    instance: when either pointer is nil the program panics on that turn,
    after the describe call and before printing anything. *)
Theorem monitor_panics_on_missing_field (env : Env) (c : SimulationConfig)
    (first : DBInstance) (others : list DBInstance) (n : nat) (st : state) :
  describeDBInstances env (calls st) (DBIdentifier c) = inl (first :: others) ->
  DBInstanceStatus first = None \/ AvailabilityZone first = None ->
  rangeTicker (S n) (5 * Second) (monitorBody env (Some c)) st =
    (Panic,
     mkState (S (calls st)) (clock st + 5 * Second)
       (trace st ++
        [(clock st + 5 * Second, TickerRecv (5 * Second));
         (clock st + 5 * Second, CallDescribe (DBIdentifier c))]%Z)).
Proof.
  intros E H. rewrite rangeTicker_step. unfold bind at 1.
  unfold monitorBody, getRDSStatus, callDescribe, field, deref, bind, ret, panic.
  cbn [calls clock trace]. rewrite E.
  destruct first as [[status |] [az |]]; cbn [DBInstanceStatus AvailabilityZone] in *;
    try (destruct H; discriminate);
    rewrite <- app_assoc; reflexivity.
Qed.

(** The recovery loop reads nothing but the status of the first instance:
    the zone, even nil, and the other instances of the answer do not change
    what a turn does; a nil status makes the program panic right after the
    describe call. *)
Theorem recovery_reads_first_status_only (env env' : Env) (id : string)
    (status az : option string) (others : list DBInstance) (st : state) :
  describeDBInstances env (calls st) id = inl (mkDBInstance status az :: others) ->
  describeDBInstances env' (calls st) id = inl [mkDBInstance status None] ->
  failoverBody env id st = failoverBody env' id st /\
  (status = None ->
   forall n,
     forever (S n) (failoverBody env id) st =
       (Panic,
        mkState (S (calls st)) (clock st)
          (trace st ++ [(clock st, CallDescribe id)]))).
Proof.
  intros E E'. split.
  - unfold failoverBody, callDescribe, bind, ret. rewrite E, E'. reflexivity.
  - intros -> n. cbn [forever]. unfold bind at 1.
    unfold failoverBody, callDescribe, deref, bind, ret, panic.
    rewrite E. reflexivity.
Qed.

(** ** Credentials *)

(** When the credentials of the control plane cannot be loaded, both
    [monitorDatabase] and [triggerFailover] return the error
    ["unable to load AWS config: ..."] at once: no ticker is started, no
    reboot is asked for and no describe call is made. *)
Theorem no_credentials_no_call (env : Env) (fuel : nat) (c : SimulationConfig)
    (e : string) (st : state) :
  loadDefaultConfig env = Some e ->
  monitorDatabase env fuel (Some c) st =
    (Ret (Some ("unable to load AWS config: " ^^ e)),
     mkState (calls st) (clock st)
       (trace st ++
        [(clock st, Print success Stdout ("Starting RDS monitoring..." ^^ nl));
         (clock st, Print info Stdout ("Instance: " ^^ DBIdentifier c ^^ nl));
         (clock st, Print info Stdout ("Endpoint: " ^^ Endpoint c ^^ nl));
         (clock st, CallLoadDefaultConfig)])) /\
  triggerFailover env fuel (Some c) st =
    (Ret (Some ("unable to load AWS config: " ^^ e)),
     mkState (calls st) (clock st)
       (trace st ++
        [(clock st, Print warning Stdout ("Initiating failover simulation..." ^^ nl));
         (clock st, Print info Stdout ("Target instance: " ^^ DBIdentifier c ^^ nl));
         (clock st, CallLoadDefaultConfig)])).
Proof.
  intros H. split.
  - unfold monitorDatabase, callLoadDefaultConfig.
    unfold field, deref, Println, Printf, emit, bind, ret. cbn [calls clock trace].
    rewrite H. norm_trace. reflexivity.
  - apply triggerFailover_no_credentials. exact H.
Qed.

(** ** From [main] to the loops and back *)

Lemma main_dispatch_monitor (env : Env) (fuel : nat)
    (configFlag modeFlag : option string) (c : SimulationConfig) (st : state) :
  loadConfig env match configFlag with Some f => f | None => "config.json" end =
    (Some c, None) ->
  modeFlag = None \/ modeFlag = Some "monitor" ->
  main env fuel configFlag modeFlag st =
    (err <- monitorDatabase env fuel (Some c) ;;
     match err with
     | Some e => Fprintf failure Stderr ("Error: " ^^ e ^^ nl)
     | None => ret tt
     end) (dispatched "monitor" st).
Proof.
  intros L [-> | ->]; unfold main; rewrite L;
    unfold dispatched, Println, Printf, emit, bind, ret;
    cbn [calls clock trace String.eqb Ascii.eqb Bool.eqb];
    norm_trace; reflexivity.
Qed.

Lemma main_dispatch_failover (env : Env) (fuel : nat)
    (configFlag : option string) (c : SimulationConfig) (st : state) :
  loadConfig env match configFlag with Some f => f | None => "config.json" end =
    (Some c, None) ->
  main env fuel configFlag (Some "failover") st =
    (err <- triggerFailover env fuel (Some c) ;;
     match err with
     | Some e => Fprintf failure Stderr ("Error: " ^^ e ^^ nl)
     | None => ret tt
     end) (dispatched "failover" st).
Proof.
  intros L; unfold main; rewrite L;
    unfold dispatched, Println, Printf, emit, bind, ret;
    cbn [calls clock trace String.eqb Ascii.eqb Bool.eqb];
    norm_trace; reflexivity.
Qed.

Lemma triggerFailover_recovers (env : Env) (fuel : nat) (c : SimulationConfig)
    (k : nat) (st : state) :
  loadDefaultConfig env = None ->
  rebootDBInstance env (DBIdentifier c) true = None ->
  (forall j, j < k ->
     pending (describeDBInstances env (calls st + j) (DBIdentifier c)) = true) ->
  healthy (describeDBInstances env (calls st + k) (DBIdentifier c)) = true ->
  k < fuel ->
  exists st',
    triggerFailover env fuel (Some c) st = (Ret None, st') /\
    calls st' = calls st + S k /\
    clock st' = (clock st + 10 * Second * Z.of_nat k)%Z /\
    last (trace st') (0%Z, Sleep 0) =
      (clock st', Print success Stdout ("Failover completed successfully" ^^ nl)).
Proof.
  intros H R P Hk F.
  rewrite (triggerFailover_enters env fuel c st H R).
  replace fuel with (k + S (fuel - S k)) by lia.
  match goal with
  | |- context [monitorFailoverStatus _ _ _ ?s] =>
      destruct (monitorFailoverStatus_ends env (DBIdentifier c) k (fuel - S k) s)
        as (st1 & E & C1 & K1 & _)
  end.
  { exact P. }
  cbn [calls clock trace] in C1, K1.
  apply healthy_inv in Hk. destruct Hk as (az & others & A).
  rewrite <- C1 in A.
  eexists. split; [ | split; [ | split]].
  - rewrite E. unfold bind at 1.
    rewrite (failoverBody_available env _ st1 az others A). reflexivity.
  - cbn [calls]. lia.
  - cbn [clock]. exact K1.
  - cbn [trace clock].
    match goal with
    | |- last (?t ++ [?a; ?b; ?c0; ?d]) _ = _ =>
        change (t ++ [a; b; c0; d]) with (t ++ [a; b; c0] ++ [d]);
        rewrite (app_assoc t [a; b; c0] [d])
    end.
    apply last_last.
Qed.

(** A successful exercise, end to end.  With a configuration that loads,
    credentials that load and a reboot that is accepted, if the first [k]
    answers are pending and the next one is available, [main] in failover
    mode returns normally after [k + 1] describe calls and [10 k] seconds,
    its last output is ["Failover completed successfully"], and it has
    written nothing on standard error. *)
Theorem main_failover_recovers (env : Env) (fuel : nat)
    (configFlag : option string) (c : SimulationConfig) (k : nat) (st : state) :
  loadConfig env match configFlag with Some f => f | None => "config.json" end =
    (Some c, None) ->
  loadDefaultConfig env = None ->
  rebootDBInstance env (DBIdentifier c) true = None ->
  (forall j, j < k ->
     pending (describeDBInstances env (calls st + j) (DBIdentifier c)) = true) ->
  healthy (describeDBInstances env (calls st + k) (DBIdentifier c)) = true ->
  k < fuel ->
  exists st',
    main env fuel configFlag (Some "failover") st = (Ret tt, st') /\
    calls st' = calls st + S k /\
    clock st' = (clock st + 10 * Second * Z.of_nat k)%Z /\
    last (trace st') (0%Z, Sleep 0) =
      (clock st', Print success Stdout ("Failover completed successfully" ^^ nl)) /\
    timesOf isStderr (trace st') = timesOf isStderr (trace st).
Proof.
  intros L H R P Hk F.
  rewrite (main_dispatch_failover env fuel configFlag c st L).
  destruct (triggerFailover_recovers env fuel c k (dispatched "failover" st) H R P Hk F)
    as (st' & E & C1 & K1 & La).
  destruct (emitsOnly_triggerFailover (fun e => isStderr e = false)
              (fun _ _ => eq_refl) (fun _ _ => eq_refl) (fun _ => eq_refl)
              eq_refl env fuel (Some c)
              (fun _ _ => conj eq_refl eq_refl) (dispatched "failover" st))
    as (delta & D & Fd).
  rewrite E in D. cbn [snd] in D.
  exists st'. unfold bind at 1. rewrite E. cbn [calls clock] in C1, K1.
  split; [reflexivity | ]. split; [exact C1 | ]. split; [exact K1 | ].
  split; [exact La | ].
  rewrite D. cbn [dispatched trace]. rewrite !timesOf_app.
  rewrite (timesOf_none isStderr delta Fd). cbn. rewrite !app_nil_r. reflexivity.
Qed.

(** A failed exercise, end to end.  If, after [k] pending answers, the
    describe call fails or finds no instance, [main] in failover mode stops
    polling at once, prints the error of the recovery loop on standard
    error as its last output, and returns normally. *)
Theorem main_failover_reports_failure (env : Env) (fuel : nat)
    (configFlag : option string) (c : SimulationConfig) (k : nat)
    (msg : string) (st : state) :
  loadConfig env match configFlag with Some f => f | None => "config.json" end =
    (Some c, None) ->
  loadDefaultConfig env = None ->
  rebootDBInstance env (DBIdentifier c) true = None ->
  (forall j, j < k ->
     pending (describeDBInstances env (calls st + j) (DBIdentifier c)) = true) ->
  failureOf (describeDBInstances env (calls st + k) (DBIdentifier c)) = Some msg ->
  k < fuel ->
  exists st',
    main env fuel configFlag (Some "failover") st = (Ret tt, st') /\
    calls st' = calls st + S k /\
    last (trace st') (0%Z, Sleep 0) =
      (clock st', Print failure Stderr ("Error: " ^^ msg ^^ nl)).
Proof.
  intros L H R P Fl F.
  rewrite (main_dispatch_failover env fuel configFlag c st L).
  unfold bind at 1.
  rewrite (triggerFailover_enters env fuel c _ H R).
  replace fuel with (k + S (fuel - S k)) by lia.
  match goal with
  | |- context [monitorFailoverStatus _ _ _ ?s] =>
      destruct (monitorFailoverStatus_ends env (DBIdentifier c) k (fuel - S k) s)
        as (st1 & E & C1 & _)
  end.
  { exact P. }
  cbn [calls clock trace dispatched] in C1. rewrite <- C1 in Fl.
  rewrite E. unfold bind at 1.
  destruct (describeDBInstances env (calls st1) (DBIdentifier c))
    as [[| first others] | e] eqn:A; cbn in Fl; try discriminate Fl;
    injection Fl as <-.
  - rewrite (failoverBody_not_found env _ st1 A).
    eexists. split; [reflexivity | ]. cbn [calls clock trace].
    split; [lia | apply last_last].
  - rewrite (failoverBody_error env _ st1 e A).
    eexists. split; [reflexivity | ]. cbn [calls clock trace].
    split; [lia | apply last_last].
Qed.

(** Monitor mode, end to end.  With a configuration that loads and
    credentials that load, [main] in monitor mode (asked for, or by default)
    does not return of its own accord: whatever the statuses, transport
    errors and empty answers it meets, it is still polling after any number
    of turns, one describe call every five seconds. *)
Theorem main_monitor_never_exits (env : Env) (fuel : nat)
    (configFlag modeFlag : option string) (c : SimulationConfig) (st : state) :
  loadConfig env match configFlag with Some f => f | None => "config.json" end =
    (Some c, None) ->
  modeFlag = None \/ modeFlag = Some "monitor" ->
  loadDefaultConfig env = None ->
  (forall n, wellFormed (describeDBInstances env n (DBIdentifier c)) = true) ->
  exists st',
    main env fuel configFlag modeFlag st = (OutOfFuel, st') /\
    calls st' = calls st + fuel /\
    clock st' = (clock st + 5 * Second * Z.of_nat fuel)%Z.
Proof.
  intros L M H W.
  rewrite (main_dispatch_monitor env fuel configFlag modeFlag c st L M).
  unfold bind at 1.
  rewrite (monitorDatabase_enters env fuel c _ H).
  match goal with
  | |- context [bind (rangeTicker _ _ _) _ ?s] =>
      destruct (monitor_loop_runs env c (5 * Second) fuel s)
        as (st' & R & C1 & K1 & _)
  end.
  { intros j _. apply W. }
  exists st'. unfold bind at 1. rewrite R.
  cbn [calls clock dispatched] in C1, K1. auto.
Qed.

(** ** The status column *)





(** ** The further properties on scenarios *)

(** An instance stuck in rebooting: seven turns, seventy seconds, no end. *)
Lemma recovery_has_no_timeout_witness :
  exists st',
    monitorFailoverStatus scenarioStuck 7 "db-1" st0 = (OutOfFuel, st') /\
    calls st' = 7 /\
    clock st' = (70 * Second)%Z.
Proof.
  apply (recovery_has_no_timeout scenarioStuck "db-1" 7 st0).
  intros n. destruct n; reflexivity.
Defined.

(** A first instance without status, in the monitor loop. *)
Lemma monitor_panics_on_missing_field_witness :
  rangeTicker 3 (5 * Second) (monitorBody scenarioNoStatus (Some config1)) st0 =
    (Panic,
     mkState 1 (5 * Second)
       [(5 * Second, TickerRecv (5 * Second));
        (5 * Second, CallDescribe "db-1")]%Z).
Proof.
  apply (monitor_panics_on_missing_field scenarioNoStatus config1
           (mkDBInstance None (Some "us-east-1a")) [] 2 st0).
  - reflexivity.
  - left. reflexivity.
Defined.

(** An answer with two instances against one with a single instance and no
    zone; and a first instance without status. *)
Lemma recovery_reads_first_status_only_witness :
  failoverBody scenarioTwo "db-1" (mkState 1 0 []) =
    failoverBody scenarioNoZone "db-1" (mkState 1 0 []) /\
  (forall n,
     forever (S n) (failoverBody scenarioNoStatus "db-1") st0 =
       (Panic, mkState 1 0 [(0%Z, CallDescribe "db-1")])).
Proof.
  split.
  - apply (proj1 (recovery_reads_first_status_only scenarioTwo scenarioNoZone "db-1"
                    (Some "available") (Some "us-east-1a")
                    [instance "rebooting" "us-east-1b"] (mkState 1 0 [])
                    eq_refl eq_refl)).
  - apply (proj2 (recovery_reads_first_status_only scenarioNoStatus scenarioBare "db-1"
                    None (Some "us-east-1a") [] st0 eq_refl eq_refl)).
    reflexivity.
Defined.

(** No credentials. *)
Lemma no_credentials_no_call_witness :
  monitorDatabase scenarioNoCredentials 5 (Some config1) st0 =
    (Ret (Some "unable to load AWS config: no credentials"),
     mkState 0 0
       [(0%Z, Print success Stdout ("Starting RDS monitoring..." ^^ nl));
        (0%Z, Print info Stdout ("Instance: db-1" ^^ nl));
        (0%Z, Print info Stdout ("Endpoint: x" ^^ nl));
        (0%Z, CallLoadDefaultConfig)]) /\
  triggerFailover scenarioNoCredentials 5 (Some config1) st0 =
    (Ret (Some "unable to load AWS config: no credentials"),
     mkState 0 0
       [(0%Z, Print warning Stdout ("Initiating failover simulation..." ^^ nl));
        (0%Z, Print info Stdout ("Target instance: db-1" ^^ nl));
        (0%Z, CallLoadDefaultConfig)]).
Proof.
  apply (no_credentials_no_call scenarioNoCredentials 5 config1 "no credentials" st0).
  reflexivity.
Defined.

(** Scenario B through [main]. *)
Lemma main_failover_recovers_witness :
  exists st',
    main scenarioB 5 None (Some "failover") st0 = (Ret tt, st') /\
    calls st' = 3 /\
    clock st' = (20 * Second)%Z /\
    last (trace st') (0%Z, Sleep 0) =
      (clock st', Print success Stdout ("Failover completed successfully" ^^ nl)) /\
    timesOf isStderr (trace st') = [].
Proof.
  apply (main_failover_recovers scenarioB 5 None config1 2 st0).
  - reflexivity.
  - reflexivity.
  - reflexivity.
  - intros j Hj. destruct j as [| [| j]]; [reflexivity | reflexivity | lia].
  - reflexivity.
  - lia.
Defined.

(** The instance is lost, or the control plane times out, on the second
    poll. *)
Lemma main_failover_reports_failure_witness :
  (exists st',
     main scenarioLost 5 None (Some "failover") st0 = (Ret tt, st') /\
     calls st' = 2 /\
     last (trace st') (0%Z, Sleep 0) =
       (clock st', Print failure Stderr ("Error: no DB instance found" ^^ nl))) /\
  (exists st',
     main scenarioFlaky 5 None (Some "failover") st0 = (Ret tt, st') /\
     calls st' = 2 /\
     last (trace st') (0%Z, Sleep 0) =
       (clock st',
        Print failure Stderr
          ("Error: error describing DB instance: timeout" ^^ nl))).
Proof.
  split.
  - apply (main_failover_reports_failure scenarioLost 5 None config1 1
             "no DB instance found" st0); try reflexivity.
    + intros j Hj. destruct j as [| j]; [reflexivity | lia].
    + lia.
  - apply (main_failover_reports_failure scenarioFlaky 5 None config1 1
             "error describing DB instance: timeout" st0); try reflexivity.
    + intros j Hj. destruct j as [| j]; [reflexivity | lia].
    + lia.
Defined.

(** Scenario A with the default flags, and scenario D in monitor mode. *)
Lemma main_monitor_never_exits_witness :
  (exists st',
     main scenarioA 4 None None st0 = (OutOfFuel, st') /\
     calls st' = 4 /\
     clock st' = (20 * Second)%Z) /\
  (exists st',
     main scenarioD 4 (Some "prod.json") (Some "monitor") st0 = (OutOfFuel, st') /\
     calls st' = 4 /\
     clock st' = (20 * Second)%Z).
Proof.
  split.
  - apply (main_monitor_never_exits scenarioA 4 None None config1 st0).
    + reflexivity.
    + left. reflexivity.
    + reflexivity.
    + intros n. destruct n; reflexivity.
  - apply (main_monitor_never_exits scenarioD 4 (Some "prod.json") (Some "monitor")
             config1 st0).
    + reflexivity.
    + right. reflexivity.
    + reflexivity.
    + intros n. destruct n as [| [| n]]; reflexivity.
Defined.


(** * Properties of the infrastructure program *)

(** Case analysis on every answer of the world met along the run. *)
Ltac world_cases :=
  unfold Infra.main, Infra.program, Infra.createVpcResources, Infra.getCurrentIP,
         Infra.new, Infra.requireSecret, Infra.export, Infra.record,
         Infra.andThen, Infra.pure, Infra.crash;
  cbn [app];
  repeat match goal with
         | |- context [Infra.getRegion ?w] =>
             destruct (Infra.getRegion w) eqn:?; cbn [app]
         | |- context [Infra.httpGet ?w ?u] =>
             destruct (Infra.httpGet w u) as [[? | ?] | ?] eqn:?; cbn [app]
         | |- context [Infra.newResource ?w ?k ?n ?a] =>
             destruct (Infra.newResource w k n a) eqn:?; cbn [app]
         | |- context [Infra.configured ?w ?k] =>
             destruct (Infra.configured w k) eqn:?; cbn [app]
         end.


(** No dangling reference: whatever fails, every output of another resource
    that a constructor receives in its arguments, and every exported
    output, belongs to a resource constructed earlier in the run. *)
Theorem infra_references_are_scoped (w : Infra.World) :
  Infra.scoped [] (snd (Infra.main w [])) = true.
Proof. world_cases; reflexivity. Qed.

(** The database port is opened to the caller only: every CIDR block of an
    ingress rule of the security group is the trimmed answer of the address
    service followed by ["/32"]. *)
Theorem infra_ingress_is_caller_address (w : Infra.World) :
  Forall (fun v =>
            exists body,
              Infra.httpGet w "https://checkip.amazonaws.com" = inl (inl body) /\
              v = Infra.VString (Infra.TrimSpace w body ^^ "/32"))
         (Infra.ingressCidrs (snd (Infra.main w []))).
Proof.
  world_cases; cbn; repeat constructor; eexists; split; eauto.
Qed.

(** Before any resource: when the region cannot be resolved the program
    returns that error after that single call; when the address service
    cannot be reached, or its answer cannot be read, it returns the error
    wrapped twice and no resource constructor has been called. *)
Theorem infra_fails_before_any_resource (w : Infra.World) (e : string) :
  (Infra.getRegion w = Some e ->
   Infra.main w [] = (Ret (Some e), [Infra.GetRegion])) /\
  (Infra.getRegion w = None ->
   Infra.httpGet w "https://checkip.amazonaws.com" = inr e ->
   Infra.main w [] =
     (Ret (Some ("error getting current IP: " ^^ "error getting public IP: " ^^ e)),
      [Infra.GetRegion; Infra.HttpGet "https://checkip.amazonaws.com"])) /\
  (Infra.getRegion w = None ->
   Infra.httpGet w "https://checkip.amazonaws.com" = inl (inr e) ->
   Infra.main w [] =
     (Ret (Some ("error getting current IP: " ^^ "error reading IP response: " ^^ e)),
      [Infra.GetRegion; Infra.HttpGet "https://checkip.amazonaws.com"])).
Proof.
  unfold Infra.main, Infra.program, Infra.createVpcResources, Infra.getCurrentIP,
         Infra.record, Infra.andThen, Infra.pure.
  cbn [app]. split; [ | split].
  - intros R. rewrite R. reflexivity.
  - intros R H. rewrite R, H. reflexivity.
  - intros R H. rewrite R, H. reflexivity.
Qed.

(** The secret is read late: when the password of the database is not
    configured and everything before succeeds, the program panics after it
    has asked for the nine resources that come before the database
    instance, and exports nothing. *)
Theorem infra_missing_password_panics_late (w : Infra.World) (body : string) :
  Infra.getRegion w = None ->
  Infra.httpGet w "https://checkip.amazonaws.com" = inl (inl body) ->
  (forall kind name args, Infra.newResource w kind name args = None) ->
  Infra.configured w "dbPassword" = false ->
  exists log,
    Infra.main w [] = (Panic, log) /\
    Infra.constructed log = firstn 9 Infra.order /\
    Infra.exported log = [] /\
    last log Infra.GetRegion = Infra.RequireSecret "dbPassword".
Proof.
  intros R H N C.
  unfold Infra.main, Infra.program, Infra.createVpcResources, Infra.getCurrentIP,
         Infra.new, Infra.requireSecret, Infra.export, Infra.record,
         Infra.andThen, Infra.pure, Infra.crash.
  cbn [app]. rewrite R, H. cbn [app]. rewrite !N. cbn [app]. rewrite C.
  eexists. split; [reflexivity | ]. repeat split.
Qed.

(** The address service is down; the answer cannot be read; the region is
    unknown. *)
Lemma infra_fails_before_any_resource_witness :
  Infra.main Infra.offlineWorld [] =
    (Ret (Some ("error getting current IP: error getting public IP: "
                ^^ "dial tcp: no route to host")),
     [Infra.GetRegion; Infra.HttpGet "https://checkip.amazonaws.com"]).
Proof.
  apply (proj1 (proj2 (infra_fails_before_any_resource Infra.offlineWorld
                         "dial tcp: no route to host"))); reflexivity.
Defined.

(** The password is not configured. *)
Lemma infra_missing_password_panics_late_witness :
  exists log,
    Infra.main Infra.noPassword [] = (Panic, log) /\
    Infra.constructed log =
      ["rds-vpc"; "rds-igw"; "public-subnet"; "private-subnet-1";
       "private-subnet-2"; "public-rt"; "public-rta"; "rds-sg";
       "rds-subnet-group"] /\
    Infra.exported log = [] /\
    last log Infra.GetRegion = Infra.RequireSecret "dbPassword".
Proof.
  apply (infra_missing_password_panics_late Infra.noPassword "203.0.113.7");
    reflexivity.
Defined.

(** The whole program in fair weather, and with a failing route table. *)
Example infra_fair_weather :
  fst (Infra.main (Infra.fairWeather "203.0.113.7") []) = Ret None /\
  Infra.constructed (snd (Infra.main (Infra.fairWeather "203.0.113.7") [])) =
    Infra.order /\
  Infra.ingressCidrs (snd (Infra.main (Infra.fairWeather "203.0.113.7") [])) =
    [Infra.VString "203.0.113.7/32"; Infra.VString "203.0.113.7/32"] /\
  Infra.main (Infra.failingAt "public-rt") [] =
    (Ret (Some "quota exceeded"),
     snd (Infra.main (Infra.failingAt "public-rt") [])) /\
  Infra.constructed (snd (Infra.main (Infra.failingAt "public-rt") [])) =
    ["rds-vpc"; "rds-igw"; "public-subnet"; "private-subnet-1";
     "private-subnet-2"; "public-rt"].
Proof. vm_compute. repeat split. Qed.
